(** * NextDNS-Rewrites: the reconciliation flow of [main.py]

    A shallow embedding of [src/main.py].  The program is one coroutine,
    [main], that loads a configuration, resolves a profile by name, fetches
    the profile's rewrites and then, for every configured rewrite, either
    replaces the remote entry of the same name (DELETE, then POST) or creates
    it (POST).

    The NextDNS service is outside the program.  It is kept abstract as an
    interface ([NextDns]) over a state of the outside world; a run of the
    program is a function of that world which returns how the run ended, the
    world it left behind and the events (API calls and log records) it
    emitted, in order.  Python's two exceptions that matter here, [ApiError]
    and the [SystemExit] raised by [exit(1)], are the two error cases of the
    monad. *)

From Stdlib Require Import String Ascii List ZArith Bool Lia Arith.
From Stdlib Require Import DecimalString.
Import ListNotations.

#[local] Open Scope string_scope.
#[local] Open Scope list_scope.

(** ** Data model *)

(** An entry of the [rewrites] list of the configuration file: a dict with
    the keys [name] and [content]. *)
Record RewriteSpec : Type := mkRewriteSpec {
  rw_name : string;
  rw_content : string
}.

(** An element of the list returned by [get_profiles()]. *)
Record Profile : Type := mkProfile {
  prof_id : string;
  prof_name : string
}.

(** An element of the list returned by [GET /profiles/{id}/rewrites]. *)
Record RemoteRewrite : Type := mkRemoteRewrite {
  ex_id : string;
  ex_name : string;
  ex_content : string
}.

(** The dict produced by [yaml.safe_load]; [config.get(key)] is [None] when
    the key is absent. *)
Record Config : Type := mkConfig {
  cfg_profile_name : option string;
  cfg_rewrites : option (list RewriteSpec)
}.

(** What opening and parsing [args.config] did (lines 48-59). *)
Inductive ConfigFile : Type :=
| FileNotFoundError
| YAMLError (e : string)
| OtherException (e : string)
| Loaded (config : Config).

(** ** Events of a run *)

Inductive Method : Type := GET | POST | DELETE.

Inductive Level : Type := INFO | ERROR.

Inductive Event : Type :=
| EvGetProfiles
| EvRequest (method : Method) (url : string) (data : option RewriteSpec)
| EvLog (level : Level) (msg : string).

Definition is_call (ev : Event) : bool :=
  match ev with
  | EvLog _ _ => false
  | _ => true
  end.

(** The API calls of a trace, in order, without the log records. *)
Definition calls (tr : list Event) : list Event := filter is_call tr.

Definition is_request (m : Method) (ev : Event) : bool :=
  match ev, m with
  | EvRequest GET _ _, GET => true
  | EvRequest POST _ _, POST => true
  | EvRequest DELETE _ _, DELETE => true
  | _, _ => false
  end.

(** Number of calls with the given method in a trace. *)
Definition count_method (m : Method) (tr : list Event) : nat :=
  length (filter (is_request m) tr).

Definition is_delete_of (url : string) (ev : Event) : bool :=
  match ev with
  | EvRequest DELETE u _ => String.eqb u url
  | _ => false
  end.

(** Number of DELETE calls on the given URL in a trace. *)
Definition count_delete (url : string) (tr : list Event) : nat :=
  length (filter (is_delete_of url) tr).

(** The kind of an API call, forgetting its target and body. *)
Inductive CallKind : Type := KProfiles | KMethod (m : Method).

Fixpoint call_kinds (tr : list Event) : list CallKind :=
  match tr with
  | [] => []
  | EvGetProfiles :: tr' => KProfiles :: call_kinds tr'
  | EvRequest m _ _ :: tr' => KMethod m :: call_kinds tr'
  | EvLog _ _ :: tr' => call_kinds tr'
  end.

(** ** The API client *)

(** A call of the client returns the parsed body or raises [ApiError]. *)
Inductive Reply (A : Type) : Type :=
| Body (a : A)
| ApiError (msg : string).

Arguments Body {A} a.
Arguments ApiError {A} msg.

(** The operations of the [nextdns] client that [main.py] uses.  [World] is
    the state of everything outside the program. *)
Class NextDns (World : Type) : Type := {
  get_profiles : World -> Reply (list Profile) * World;
  http_get : string -> World -> Reply (list RemoteRewrite) * World;
  http_post : string -> RewriteSpec -> World -> Reply string * World;
  http_delete : string -> World -> Reply unit * World
}.

(** ** The monad of runs *)

Inductive Exn : Type :=
| ExnApiError (msg : string)
| SystemExit (code : Z).

Inductive Outcome (A : Type) : Type :=
| Ret (a : A)
| Raise (e : Exn).

Arguments Ret {A} a.
Arguments Raise {A} e.

Definition Run (World A : Type) : Type :=
  World -> Outcome A * World * list Event.

Definition ret {World A} (a : A) : Run World A :=
  fun w => (Ret a, w, []).

Definition bind {World A B} (m : Run World A) (k : A -> Run World B)
  : Run World B :=
  fun w =>
    match m w with
    | (Ret a, w1, tr1) =>
        let '(o, w2, tr2) := k a w1 in (o, w2, tr1 ++ tr2)
    | (Raise e, w1, tr1) => (Raise e, w1, tr1)
    end.

Definition raise {World A} (e : Exn) : Run World A :=
  fun w => (Raise e, w, []).

(** [exit(code)] raises [SystemExit]. *)
Definition exit {World A} (code : Z) : Run World A :=
  raise (SystemExit code).

(** [try: m  except ApiError as e: handler(str(e))]; a [SystemExit] raised in
    [m] is not caught. *)
Definition try_except {World A} (m : Run World A)
  (handler : string -> Run World A) : Run World A :=
  fun w =>
    match m w with
    | (Raise (ExnApiError msg), w1, tr1) =>
        let '(o, w2, tr2) := handler msg w1 in (o, w2, tr1 ++ tr2)
    | r => r
    end.

Definition emit {World} (ev : Event) : Run World unit :=
  fun w => (Ret tt, w, [ev]).

Definition logging {World} (level : Level) (msg : string) : Run World unit :=
  emit (EvLog level msg).

(** One call of the client: the event is recorded whether or not the call
    raises. *)
Definition call {World A} (ev : Event) (op : World -> Reply A * World)
  : Run World A :=
  fun w =>
    match op w with
    | (Body a, w1) => (Ret a, w1, [ev])
    | (ApiError msg, w1) => (Raise (ExnApiError msg), w1, [ev])
    end.

Declare Scope run_scope.
Delimit Scope run_scope with run.
Notation "x <- m ;; k" := (bind m (fun x => k))
  (at level 61, m at next level, right associativity) : run_scope.
Notation "m ;; k" := (bind m (fun _ => k))
  (at level 61, right associativity) : run_scope.
#[local] Open Scope run_scope.

(** The exit status of the process, once [asyncio.run(main())] is over: an
    uncaught exception ends the interpreter with status 1. *)
Definition exit_code {A} (o : Outcome A) : Z :=
  match o with
  | Ret _ => 0
  | Raise (SystemExit code) => code
  | Raise (ExnApiError _) => 1
  end.

Definition outcome {World A} (r : Outcome A * World * list Event) : Outcome A :=
  fst (fst r).

Definition world_after {World A} (r : Outcome A * World * list Event) : World :=
  snd (fst r).

Definition events {World A} (r : Outcome A * World * list Event) : list Event :=
  snd r.

(** ** The program *)

Definition rewrites_url (profile_id : string) : string :=
  "https://api.nextdns.io/profiles/" ++ profile_id ++ "/rewrites".

Definition rewrite_url (profile_id rewrite_id : string) : string :=
  "https://api.nextdns.io/profiles/" ++ profile_id ++ "/rewrites/" ++ rewrite_id.

(** Lines 92-94: [next((p for p in profiles if p["name"] == profile_name), None)]. *)
Definition find_profile (profiles : list Profile) (profile_name : string)
  : option Profile :=
  find (fun profile => String.eqb (prof_name profile) profile_name) profiles.

(** Python's truth value of a string that may be [None]. *)
Definition truthy (s : option string) : bool :=
  match s with
  | None => false
  | Some s' => negb (String.eqb s' "")
  end.

(** The create call for a rewrite and the delete call on a remote entry, as
    [create_rewrite] (lines 27-31) and lines 124-127 issue them. *)
Definition post_call (profile_id : string) (rewrite : RewriteSpec) : Event :=
  EvRequest POST (rewrites_url profile_id) (Some rewrite).

Definition delete_call (profile_id : string) (e : RemoteRewrite) : Event :=
  EvRequest DELETE (rewrite_url profile_id (ex_id e)) None.

(** The replies to a DELETE after which the replacement goes on (lines
    123-134): the call returned, or it raised the [ApiError] whose text is
    "Error code: 204". *)
Definition delete_succeeded (reply : Reply unit) : Prop :=
  reply = Body tt \/ reply = ApiError "Error code: 204".

(** The first entry of the fetched list with the given name, if any: the
    entry at which the inner loop of lines 116-117 stops. *)
Definition first_match (existing_rewrites : list RemoteRewrite) (name : string)
  : option RemoteRewrite :=
  find (fun existing_rewrite => String.eqb (ex_name existing_rewrite) name)
       existing_rewrites.

(** The kinds of calls that reconciling [rewrites] against the fetched list
    takes when nothing fails: DELETE and POST for a name that is present,
    POST alone for a name that is not. *)
Definition plan (existing_rewrites : list RemoteRewrite)
  (rewrites : list RewriteSpec) : list CallKind :=
  flat_map
    (fun rewrite =>
       match first_match existing_rewrites (rw_name rewrite) with
       | Some _ => [KMethod DELETE; KMethod POST]
       | None => [KMethod POST]
       end)
    rewrites.

(** The calls that reconciling [rewrites] against the fetched list takes when
    nothing fails, with their targets and bodies: for each desired rewrite in
    turn, the DELETE of its first match, if it has one, and its POST. *)
Definition planned_calls (profile_id : string)
  (existing_rewrites : list RemoteRewrite) (rewrites : list RewriteSpec)
  : list Event :=
  flat_map
    (fun rewrite =>
       match first_match existing_rewrites (rw_name rewrite) with
       | Some e => [delete_call profile_id e; post_call profile_id rewrite]
       | None => [post_call profile_id rewrite]
       end)
    rewrites.

Definition is_error_log (ev : Event) : bool :=
  match ev with
  | EvLog ERROR _ => true
  | _ => false
  end.

(** The records of a trace logged with [logging.error]. *)
Definition error_logs (tr : list Event) : list Event := filter is_error_log tr.

(** A call that changes the remote state. *)
Definition is_mutation (ev : Event) : bool :=
  is_request POST ev || is_request DELETE ev.

(** The trace of a run that logged one error, as its last record. *)
Definition ends_with_error (tr : list Event) : Prop :=
  exists pre msg, tr = pre ++ [EvLog ERROR msg] /\ error_logs pre = [].

Section Program.

Context {World : Type} {nextdns : NextDns World}.

(** Lines 11-34. *)
Definition create_rewrite (profile_id : string) (rewrite : RewriteSpec)
  : Run World string :=
  try_except
    (call (EvRequest POST (rewrites_url profile_id) (Some rewrite))
          (http_post (rewrites_url profile_id) rewrite))
    (fun e => raise (ExnApiError ("Error creating NextDNS rewrite: " ++ e))).

(** Lines 136-145 and 152-159: create the rewrite, log its id; a failure is
    fatal. *)
Definition create_or_exit (profile_id : string) (rewrite : RewriteSpec)
  : Run World unit :=
  try_except
    (rewrite_id <- create_rewrite profile_id rewrite ;;
     logging INFO ("NextDNS rewrite " ++ rw_name rewrite
                   ++ " created with ID: " ++ rewrite_id ++ "."))
    (fun e =>
       logging ERROR ("Error creating NextDNS rewrite: " ++ e) ;;
       exit 1).

(** Lines 118-146: the body of the [if] of the inner loop. *)
Definition replace_rewrite (profile_id : string) (rewrite : RewriteSpec)
  (existing_rewrite : RemoteRewrite) : Run World unit :=
  logging INFO ("NextDNS rewrite " ++ rw_name rewrite
                ++ " already exists. Ensuring it is up to date.") ;;
  try_except
    (call (EvRequest DELETE
             (rewrite_url profile_id (ex_id existing_rewrite)) None)
          (http_delete (rewrite_url profile_id (ex_id existing_rewrite))))
    (fun e =>
       if String.eqb e "Error code: 204" then
         logging INFO ("NextDNS rewrite " ++ rw_name rewrite ++ " deleted.")
       else
         logging ERROR ("Error deleting NextDNS rewrite: " ++ e) ;;
         exit 1) ;;
  create_or_exit profile_id rewrite.

(** Lines 116-159: the inner [for ... else] loop, one iteration of the outer
    loop.  The first entry of the same name is replaced and the loop is left
    ([break]); when the list is exhausted the [else] branch creates. *)
Fixpoint reconcile_rewrite (profile_id : string) (rewrite : RewriteSpec)
  (existing_rewrites : list RemoteRewrite) : Run World unit :=
  match existing_rewrites with
  | [] =>
      logging INFO ("NextDNS rewrite " ++ rw_name rewrite
                    ++ " does not exist. Creating...") ;;
      create_or_exit profile_id rewrite
  | existing_rewrite :: rest =>
      if String.eqb (ex_name existing_rewrite) (rw_name rewrite) then
        replace_rewrite profile_id rewrite existing_rewrite
      else
        reconcile_rewrite profile_id rewrite rest
  end.

(** Lines 115-159: the outer loop.  [existing_rewrites] is the list fetched
    before the loop; it is not fetched again. *)
Fixpoint reconcile (profile_id : string)
  (existing_rewrites : list RemoteRewrite) (rewrites : list RewriteSpec)
  : Run World unit :=
  match rewrites with
  | [] => ret tt
  | rewrite :: rest =>
      reconcile_rewrite profile_id rewrite existing_rewrites ;;
      reconcile profile_id existing_rewrites rest
  end.

(** Lines 40-159, after [parse_args]: [path] is [args.config], [file] what
    loading it gave and [env_key] the value of [NEXTDNS_API_KEY]. *)
Definition main (path : string) (file : ConfigFile) (env_key : option string)
  : Run World unit :=
  config <- match file with
            | Loaded config => ret config
            | FileNotFoundError =>
                logging ERROR ("Configuration file not found: " ++ path) ;;
                exit 1
            | YAMLError e =>
                logging ERROR ("Error parsing YAML configuration: " ++ e) ;;
                exit 1
            | OtherException e =>
                logging ERROR ("Error loading configuration: " ++ e) ;;
                exit 1
            end ;;
  (if negb (truthy env_key) then
     logging ERROR "NEXTDNS_API_KEY environment variable not set." ;;
     exit 1
   else ret tt) ;;
  profile_name <- match cfg_profile_name config with
                  | Some profile_name =>
                      if negb (truthy (Some profile_name)) then
                        logging ERROR
                          "NextDNS Profile Name not found in configuration file." ;;
                        exit 1
                      else
                        logging INFO ("NextDNS Profile Name: " ++ profile_name) ;;
                        ret profile_name
                  | None =>
                      logging ERROR
                        "NextDNS Profile Name not found in configuration file." ;;
                      exit 1
                  end ;;
  rewrites <- match cfg_rewrites config with
              | Some (rewrite :: rest) => ret (rewrite :: rest)
              | _ =>
                  logging ERROR "No NextDNS rewrites found in configuration file." ;;
                  exit 1
              end ;;
  profiles <- try_except
                (call EvGetProfiles get_profiles)
                (fun e =>
                   logging ERROR ("Error getting NextDNS profile: " ++ e) ;;
                   exit 1) ;;
  match find_profile profiles profile_name with
  | None =>
      logging ERROR ("NextDNS profile name " ++ profile_name
                     ++ " not found in list of profiles.") ;;
      exit 1
  | Some profile =>
      logging INFO ("NextDNS profile found with name: " ++ prof_name profile
                    ++ " and ID: " ++ prof_id profile ++ ".") ;;
      existing_rewrites <-
        try_except
          (call (EvRequest GET (rewrites_url (prof_id profile)) None)
                (http_get (rewrites_url (prof_id profile))))
          (fun e =>
             logging ERROR ("Error getting existing NextDNS rewrites: " ++ e) ;;
             exit 1) ;;
      reconcile (prof_id profile) existing_rewrites rewrites
  end.

End Program.

(** ** A test double of the service

    An in-memory stand-in for the provider (the contract of the API client),
    used to run the program on concrete inputs.  It holds the profiles and the
    rewrites of one profile.  A POST stores the entry under a fresh id; a
    DELETE of a stored id removes the entry and, as the provider does, answers
    with status 204, which the client raises as [ApiError]. *)
Module Double.

Inductive DeleteMode : Type :=
| Status204          (* a successful DELETE raises "Error code: 204" *)
| Silent             (* a successful DELETE returns *)
| Failing (msg : string).   (* every DELETE raises [msg], nothing is removed *)

Record Server : Type := mkServer {
  srv_profiles : list Profile;
  srv_owner : string;
  srv_rewrites : list RemoteRewrite;
  srv_next : nat;
  srv_delete : DeleteMode
}.

Definition fresh_id (n : nat) : string :=
  "r" ++ NilEmpty.string_of_uint (Nat.to_uint n).

Definition stored (url : string) (s : Server) (e : RemoteRewrite) : bool :=
  String.eqb (rewrite_url (srv_owner s) (ex_id e)) url.

Definition server_get_profiles (s : Server) : Reply (list Profile) * Server :=
  (Body (srv_profiles s), s).

Definition server_get (url : string) (s : Server)
  : Reply (list RemoteRewrite) * Server :=
  if String.eqb url (rewrites_url (srv_owner s)) then (Body (srv_rewrites s), s)
  else (ApiError "Error code: 404", s).

Definition server_post (url : string) (rewrite : RewriteSpec) (s : Server)
  : Reply string * Server :=
  if String.eqb url (rewrites_url (srv_owner s)) then
    (Body (fresh_id (srv_next s)),
     mkServer (srv_profiles s) (srv_owner s)
       (srv_rewrites s
        ++ [mkRemoteRewrite (fresh_id (srv_next s)) (rw_name rewrite)
              (rw_content rewrite)])
       (S (srv_next s)) (srv_delete s))
  else (ApiError "Error code: 404", s).

Definition server_delete (url : string) (s : Server) : Reply unit * Server :=
  match srv_delete s with
  | Failing msg => (ApiError msg, s)
  | mode =>
      if existsb (stored url s) (srv_rewrites s) then
        (match mode with Silent => Body tt | _ => ApiError "Error code: 204" end,
         mkServer (srv_profiles s) (srv_owner s)
           (filter (fun e => negb (stored url s e)) (srv_rewrites s))
           (srv_next s) (srv_delete s))
      else (ApiError "Error code: 404", s)
  end.

#[global] Instance server_api : NextDns Server := {
  get_profiles := server_get_profiles;
  http_get := server_get;
  http_post := server_post;
  http_delete := server_delete
}.

(** The remote state of the end-to-end examples: one profile "home" with id
    "p1" and the given rewrites. *)
Definition home (rewrites : list RemoteRewrite) (mode : DeleteMode) : Server :=
  mkServer [mkProfile "p1" "home"] "p1" rewrites 0 mode.

Definition router : RewriteSpec := mkRewriteSpec "router.lan" "10.0.0.1".

Definition home_config (rewrites : list RewriteSpec) : ConfigFile :=
  Loaded (mkConfig (Some "home") (Some rewrites)).

(** Remote entries and desired rewrites of the examples. *)
Definition r9 : RemoteRewrite := mkRemoteRewrite "r9" "router.lan" "10.0.0.9".

Definition r10 : RemoteRewrite := mkRemoteRewrite "r10" "router.lan" "10.0.0.10".

Definition n1 : RemoteRewrite := mkRemoteRewrite "n1" "nas.lan" "10.0.0.2".

Definition nas : RewriteSpec := mkRewriteSpec "nas.lan" "10.0.0.2".


(** Two profiles with the same name. *)
Definition twins : Server :=
  mkServer [mkProfile "p1" "home"; mkProfile "p2" "home"] "p1" [] 0 Status204.

(** The same service when it takes no POST, and when it is down. *)
Definition read_only_api : NextDns Server := {|
  get_profiles := server_get_profiles;
  http_get := server_get;
  http_post := fun _ _ s => (ApiError "Error code: 403", s);
  http_delete := server_delete
|}.

Definition down_api : NextDns Server := {|
  get_profiles := fun s => (ApiError "Error code: 503", s);
  http_get := fun _ s => (ApiError "Error code: 503", s);
  http_post := fun _ _ s => (ApiError "Error code: 503", s);
  http_delete := fun _ s => (ApiError "Error code: 503", s)
|}.

(** A profile list in which the second profile is not the one the double
    holds the rewrites of. *)
Definition two_profiles : Server :=
  mkServer [mkProfile "p1" "home"; mkProfile "p2" "work"] "p1" [r9] 0
    Status204.

End Double.

(** ** The end-to-end examples *)

(** No remote rewrite: GET profiles, GET rewrites, POST; exit status 0. *)
Example end_to_end_create :
  let r := main "config.yaml" (Double.home_config [Double.router]) (Some "key")
             (Double.home [] Double.Status204) in
  calls (events r)
  = [EvGetProfiles;
     EvRequest GET "https://api.nextdns.io/profiles/p1/rewrites" None;
     EvRequest POST "https://api.nextdns.io/profiles/p1/rewrites"
       (Some Double.router)]
  /\ exit_code (outcome r) = 0%Z.
Proof. vm_compute. split; reflexivity. Qed.

(** The rewrite exists remotely with id "r9": it is deleted, then created. *)
Example end_to_end_replace :
  let r := main "config.yaml" (Double.home_config [Double.router]) (Some "key")
             (Double.home [mkRemoteRewrite "r9" "router.lan" "10.0.0.9"]
                Double.Status204) in
  calls (events r)
  = [EvGetProfiles;
     EvRequest GET "https://api.nextdns.io/profiles/p1/rewrites" None;
     EvRequest DELETE "https://api.nextdns.io/profiles/p1/rewrites/r9" None;
     EvRequest POST "https://api.nextdns.io/profiles/p1/rewrites"
       (Some Double.router)]
  /\ exit_code (outcome r) = 0%Z.
Proof. vm_compute. split; reflexivity. Qed.

(** * Properties *)

(** ** Traces *)

Lemma calls_app (tr1 tr2 : list Event) :
  calls (tr1 ++ tr2) = calls tr1 ++ calls tr2.
Proof. apply filter_app. Qed.

Lemma count_method_app (m : Method) (tr1 tr2 : list Event) :
  count_method m (tr1 ++ tr2) = count_method m tr1 + count_method m tr2.
Proof. unfold count_method. now rewrite filter_app, length_app. Qed.


Lemma call_kinds_app (tr1 tr2 : list Event) :
  call_kinds (tr1 ++ tr2) = call_kinds tr1 ++ call_kinds tr2.
Proof.
  induction tr1 as [|ev tr1 IH]; simpl; [reflexivity|].
  destruct ev; simpl; now rewrite IH.
Qed.

(** Logs do not count: every counter of calls only sees [calls tr]. *)
Lemma count_method_calls (m : Method) (tr : list Event) :
  count_method m (calls tr) = count_method m tr.
Proof.
  unfold count_method, calls.
  induction tr as [|ev tr IH]; simpl; [reflexivity|].
  destruct ev as [|m' u d|l s]; [destruct m | destruct m, m' | destruct m];
    simpl; now rewrite ?IH.
Qed.

Lemma count_delete_calls (url : string) (tr : list Event) :
  count_delete url (calls tr) = count_delete url tr.
Proof.
  unfold count_delete, calls.
  induction tr as [|ev tr IH]; simpl; [reflexivity|].
  destruct ev as [|m' u d|l s]; simpl; try assumption.
  destruct m'; simpl; try assumption.
  destruct (String.eqb u url); simpl; now rewrite IH.
Qed.

(** ** URLs *)

Lemma append_inj_l (p s t : string) : (p ++ s = p ++ t)%string -> s = t.
Proof.
  induction p as [|c p IH]; simpl; intros H; [assumption|].
  injection H as H. now apply IH.
Qed.

Lemma rewrite_url_inj (profile_id i j : string) :
  rewrite_url profile_id i = rewrite_url profile_id j -> i = j.
Proof.
  unfold rewrite_url. intros H.
  apply append_inj_l in H. apply append_inj_l in H.
  now apply append_inj_l in H.
Qed.

(** ** First matches *)

(** Both lookups of the program, of the profile and of the existing rewrite,
    are a [find] of the first element whose name is the given string. *)
Section FindByName.

Variables (A : Type) (key : A -> string).

Lemma find_name_none (l : list A) (name : string) :
  find (fun a => String.eqb (key a) name) l = None
  <-> Forall (fun a => key a <> name) l.
Proof.
  induction l as [|a l IH]; simpl.
  - split; [constructor | reflexivity].
  - destruct (String.eqb_spec (key a) name) as [E|E].
    + split; [discriminate|]. intros H. inversion H; subst. contradiction.
    + rewrite IH. split; intros H.
      * now constructor.
      * now inversion H.
Qed.

Lemma find_name_some (l : list A) (name : string) (x : A) :
  find (fun a => String.eqb (key a) name) l = Some x
  <-> exists l1 l2, l = l1 ++ x :: l2
                    /\ Forall (fun a => key a <> name) l1
                    /\ key x = name.
Proof.
  induction l as [|a l IH]; simpl.
  - split; [discriminate|]. intros (l1 & l2 & H & _). now destruct l1.
  - destruct (String.eqb_spec (key a) name) as [E|E].
    + split.
      * intros H. injection H as <-. exists [], l. now repeat split.
      * intros (l1 & l2 & H & Hl1 & Hx). destruct l1 as [|b l1]; simpl in H.
        -- now injection H as -> _.
        -- injection H as <- _. inversion Hl1; subst. contradiction.
    + rewrite IH. split.
      * intros (l1 & l2 & -> & Hl1 & Hx). exists (a :: l1), l2.
        repeat split; [now constructor | assumption].
      * intros (l1 & l2 & H & Hl1 & Hx). destruct l1 as [|b l1]; simpl in H.
        -- injection H as -> _. contradiction.
        -- injection H as <- ->. inversion Hl1; subst.
           exists l1, l2. now repeat split.
Qed.

End FindByName.

Lemma first_match_none (existing : list RemoteRewrite) (name : string) :
  first_match existing name = None
  <-> Forall (fun e => ex_name e <> name) existing.
Proof. apply find_name_none. Qed.

Lemma first_match_some (existing : list RemoteRewrite) (name : string)
  (e : RemoteRewrite) :
  first_match existing name = Some e
  <-> exists l1 l2, existing = l1 ++ e :: l2
                    /\ Forall (fun e' => ex_name e' <> name) l1
                    /\ ex_name e = name.
Proof. apply find_name_some. Qed.

(** ** Lists without duplicates *)



Section Steps.

Context {World : Type} {nextdns : NextDns World}.

Implicit Types (w : World) (rewrite : RewriteSpec) (e : RemoteRewrite).

(** The inner loop is the first-match lookup followed by a conditional. *)
Lemma reconcile_rewrite_first_match profile_id rewrite existing :
  reconcile_rewrite profile_id rewrite existing
  = match first_match existing (rw_name rewrite) with
    | Some e => replace_rewrite profile_id rewrite e
    | None =>
        logging INFO ("NextDNS rewrite " ++ rw_name rewrite
                      ++ " does not exist. Creating...") ;;
        create_or_exit profile_id rewrite
    end.
Proof.
  unfold first_match. induction existing as [|a l IH]; simpl; [reflexivity|].
  now destruct (String.eqb (ex_name a) (rw_name rewrite)).
Qed.

(** Creation issues the POST and nothing else; a failure of the POST ends the
    run with status 1. *)
Lemma create_or_exit_run profile_id rewrite w :
  create_or_exit profile_id rewrite w
  = match http_post (rewrites_url profile_id) rewrite w with
    | (Body rewrite_id, w1) =>
        (Ret tt, w1,
         [post_call profile_id rewrite;
          EvLog INFO ("NextDNS rewrite " ++ rw_name rewrite
                      ++ " created with ID: " ++ rewrite_id ++ ".")])
    | (ApiError msg, w1) =>
        (Raise (SystemExit 1), w1,
         [post_call profile_id rewrite;
          EvLog ERROR ("Error creating NextDNS rewrite: "
                       ++ "Error creating NextDNS rewrite: " ++ msg)])
    end.
Proof.
  unfold create_or_exit, create_rewrite, try_except, bind, call, logging,
    emit, raise, exit, post_call.
  destruct (http_post (rewrites_url profile_id) rewrite w) as [[id|msg] w1];
    reflexivity.
Qed.

Lemma create_or_exit_calls profile_id rewrite w :
  calls (events (create_or_exit profile_id rewrite w))
  = [post_call profile_id rewrite].
Proof.
  rewrite create_or_exit_run.
  destruct (http_post (rewrites_url profile_id) rewrite w) as [[id|msg] w1];
    reflexivity.
Qed.

(** The three ways a replacement goes, by the reply to the DELETE. *)
Lemma replace_rewrite_run profile_id rewrite e w :
  replace_rewrite profile_id rewrite e w
  = let exists_log :=
      EvLog INFO ("NextDNS rewrite " ++ rw_name rewrite
                  ++ " already exists. Ensuring it is up to date.") in
    match http_delete (rewrite_url profile_id (ex_id e)) w with
    | (Body _, w1) =>
        let '(o, w2, tr) := create_or_exit profile_id rewrite w1 in
        (o, w2, [exists_log; delete_call profile_id e] ++ tr)
    | (ApiError msg, w1) =>
        if String.eqb msg "Error code: 204" then
          let '(o, w2, tr) := create_or_exit profile_id rewrite w1 in
          (o, w2,
           [exists_log; delete_call profile_id e;
            EvLog INFO ("NextDNS rewrite " ++ rw_name rewrite ++ " deleted.")]
           ++ tr)
        else
          (Raise (SystemExit 1), w1,
           [exists_log; delete_call profile_id e;
            EvLog ERROR ("Error deleting NextDNS rewrite: " ++ msg)])
    end.
Proof.
  unfold replace_rewrite, try_except, bind, call, logging, emit, raise, exit,
    delete_call.
  cbn [app].
  destruct (http_delete (rewrite_url profile_id (ex_id e)) w) as [[[]|msg] w1].
  - destruct (create_or_exit profile_id rewrite w1) as [[o w2] tr].
    reflexivity.
  - destruct (String.eqb msg "Error code: 204"); cbn [app]; [|reflexivity].
    destruct (create_or_exit profile_id rewrite w1) as [[o w2] tr].
    reflexivity.
Qed.

Lemma delete_succeeded_dec (reply : Reply unit) :
  delete_succeeded reply
  \/ exists msg, reply = ApiError msg /\ msg <> "Error code: 204".
Proof.
  destruct reply as [[]|msg]; [left; now left|].
  destruct (String.eqb_spec msg "Error code: 204") as [->|E].
  - left; now right.
  - right. now exists msg.
Qed.

Lemma replace_rewrite_proceeds profile_id rewrite e w :
  delete_succeeded (fst (http_delete (rewrite_url profile_id (ex_id e)) w)) ->
  calls (events (replace_rewrite profile_id rewrite e w))
  = [delete_call profile_id e; post_call profile_id rewrite].
Proof.
  intros Hok. rewrite replace_rewrite_run. cbv zeta.
  destruct (http_delete (rewrite_url profile_id (ex_id e)) w)
    as [[[]|msg] w1]; cbn [fst] in Hok.
  - pose proof (create_or_exit_calls profile_id rewrite w1) as Hc.
    destruct (create_or_exit profile_id rewrite w1) as [[o w2] tr].
    unfold events in *. cbn [snd] in *. rewrite calls_app, Hc. reflexivity.
  - destruct Hok as [Hok|Hok]; [discriminate|]. injection Hok as ->.
    cbn [String.eqb Ascii.eqb Bool.eqb].
    pose proof (create_or_exit_calls profile_id rewrite w1) as Hc.
    destruct (create_or_exit profile_id rewrite w1) as [[o w2] tr].
    unfold events in *. cbn [snd] in *. rewrite calls_app, Hc. reflexivity.
Qed.

Lemma replace_rewrite_aborts profile_id rewrite e w msg :
  fst (http_delete (rewrite_url profile_id (ex_id e)) w) = ApiError msg ->
  msg <> "Error code: 204" ->
  calls (events (replace_rewrite profile_id rewrite e w))
  = [delete_call profile_id e]
  /\ outcome (replace_rewrite profile_id rewrite e w) = Raise (SystemExit 1).
Proof.
  intros Hreply Hmsg. rewrite replace_rewrite_run. cbv zeta.
  destruct (http_delete (rewrite_url profile_id (ex_id e)) w) as [reply w1].
  cbn [fst] in Hreply. subst reply.
  apply String.eqb_neq in Hmsg. rewrite Hmsg. split; reflexivity.
Qed.

(** Whatever the service answers, a replacement issues the DELETE on the
    entry and then at most the POST. *)
Lemma replace_rewrite_calls profile_id rewrite e w :
  calls (events (replace_rewrite profile_id rewrite e w))
  = [delete_call profile_id e; post_call profile_id rewrite]
  \/ calls (events (replace_rewrite profile_id rewrite e w))
     = [delete_call profile_id e].
Proof.
  destruct (delete_succeeded_dec
              (fst (http_delete (rewrite_url profile_id (ex_id e)) w)))
    as [Hok|(msg & Hreply & Hmsg)].
  - left. now apply replace_rewrite_proceeds.
  - right. now apply (replace_rewrite_aborts _ _ _ _ msg).
Qed.

(** One iteration of the outer loop, then the rest. *)
Lemma reconcile_cons profile_id existing rewrite rest w :
  reconcile profile_id existing (rewrite :: rest) w
  = match reconcile_rewrite profile_id rewrite existing w with
    | (Ret _, w1, tr1) =>
        let '(o, w2, tr2) := reconcile profile_id existing rest w1 in
        (o, w2, tr1 ++ tr2)
    | (Raise ex, w1, tr1) => (Raise ex, w1, tr1)
    end.
Proof. reflexivity. Qed.

(** A [SystemExit] in one iteration ends the loop: no later rewrite is
    looked at. *)
Lemma reconcile_cons_raise profile_id existing rewrite rest w ex :
  outcome (reconcile_rewrite profile_id rewrite existing w) = Raise ex ->
  outcome (reconcile profile_id existing (rewrite :: rest) w) = Raise ex
  /\ events (reconcile profile_id existing (rewrite :: rest) w)
     = events (reconcile_rewrite profile_id rewrite existing w).
Proof.
  intros H. rewrite reconcile_cons.
  destruct (reconcile_rewrite profile_id rewrite existing w) as [[o w1] tr1].
  unfold outcome in H. cbn in H. subst o. split; reflexivity.
Qed.

Lemma count_delete_create url profile_id rewrite w :
  count_delete url (events (create_or_exit profile_id rewrite w)) = 0.
Proof.
  rewrite <- count_delete_calls, create_or_exit_calls. reflexivity.
Qed.

Lemma count_delete_replace url profile_id rewrite e w :
  count_delete url (events (replace_rewrite profile_id rewrite e w))
  = if String.eqb (rewrite_url profile_id (ex_id e)) url then 1 else 0.
Proof.
  rewrite <- count_delete_calls.
  destruct (replace_rewrite_calls profile_id rewrite e w) as [-> | ->];
    unfold count_delete, delete_call, post_call; cbn [filter is_delete_of];
    now destruct (String.eqb (rewrite_url profile_id (ex_id e)) url).
Qed.

Lemma count_delete_step url profile_id rewrite existing w :
  count_delete url (events (reconcile_rewrite profile_id rewrite existing w))
  = match first_match existing (rw_name rewrite) with
    | Some e => if String.eqb (rewrite_url profile_id (ex_id e)) url
                then 1 else 0
    | None => 0
    end.
Proof.
  rewrite reconcile_rewrite_first_match.
  destruct (first_match existing (rw_name rewrite)) as [e|].
  - apply count_delete_replace.
  - unfold bind, logging, emit.
    pose proof (count_delete_create url profile_id rewrite w) as Hc.
    destruct (create_or_exit profile_id rewrite w) as [[o w1] tr1].
    exact Hc.
Qed.

End Steps.

(** ** The reconciliation step of one rewrite *)

Section Reconciler.

Context {World : Type} {nextdns : NextDns World}.

Implicit Types (w : World) (rewrite : RewriteSpec) (e : RemoteRewrite).

(** C2: a desired rewrite whose name is the name of no entry of the fetched
    list gets exactly one create call, for that rewrite, and no delete call:
    the POST is the only API call of its step. *)
Theorem create_when_absent profile_id rewrite existing w :
  Forall (fun e => ex_name e <> rw_name rewrite) existing ->
  let tr := events (reconcile_rewrite profile_id rewrite existing w) in
  calls tr = [post_call profile_id rewrite]
  /\ count_method POST tr = 1
  /\ count_method DELETE tr = 0.
Proof.
  intros Habsent tr.
  assert (Hcalls : calls tr = [post_call profile_id rewrite]).
  { subst tr. rewrite reconcile_rewrite_first_match.
    rewrite (proj2 (first_match_none existing (rw_name rewrite)) Habsent).
    unfold bind, logging, emit.
    pose proof (create_or_exit_calls profile_id rewrite w) as Hc.
    destruct (create_or_exit profile_id rewrite w) as [[o w1] tr1].
    exact Hc. }
  split; [exact Hcalls|].
  rewrite <- (count_method_calls POST), <- (count_method_calls DELETE), Hcalls.
  split; reflexivity.
Qed.

(** C1 (amended): a desired rewrite whose name is the name of an entry of the
    fetched list gets exactly one delete call, on the id of the first such
    entry, and it comes first.  When that DELETE returns or raises
    "Error code: 204", exactly one create call for the rewrite follows and
    nothing else; when it raises any other [ApiError] the run exits with
    status 1 and the delete call stays the only call. *)
Theorem replace_when_present profile_id rewrite existing e w :
  first_match existing (rw_name rewrite) = Some e ->
  let r := reconcile_rewrite profile_id rewrite existing w in
  let reply := fst (http_delete (rewrite_url profile_id (ex_id e)) w) in
  count_method DELETE (events r) = 1
  /\ (delete_succeeded reply ->
      calls (events r)
      = [delete_call profile_id e; post_call profile_id rewrite])
  /\ (forall msg, reply = ApiError msg -> msg <> "Error code: 204" ->
      calls (events r) = [delete_call profile_id e]
      /\ outcome r = Raise (SystemExit 1)).
Proof.
  intros Hm r reply. subst r reply.
  rewrite reconcile_rewrite_first_match, Hm.
  split; [|split].
  - rewrite <- count_method_calls.
    destruct (replace_rewrite_calls profile_id rewrite e w) as [-> | ->];
      reflexivity.
  - apply replace_rewrite_proceeds.
  - apply replace_rewrite_aborts.
Qed.

(** C3: when the DELETE of the matched entry raises the special status
    "Error code: 204", nothing is raised by the program: the rewrite is logged
    as deleted and the step goes on with the create call, in the world the
    DELETE left.  When it raises any other status, the run ends there with a
    non-zero exit status: the delete call is the last call of the whole run,
    and no create call is issued, for this rewrite or for a later one. *)
Theorem delete_status_decides profile_id rewrite rest existing e w msg w1 :
  first_match existing (rw_name rewrite) = Some e ->
  http_delete (rewrite_url profile_id (ex_id e)) w = (ApiError msg, w1) ->
  (msg = "Error code: 204" ->
   let r := reconcile_rewrite profile_id rewrite existing w in
   let c := create_or_exit profile_id rewrite w1 in
   outcome r = outcome c
   /\ events r
      = [EvLog INFO ("NextDNS rewrite " ++ rw_name rewrite
                     ++ " already exists. Ensuring it is up to date.");
         delete_call profile_id e;
         EvLog INFO ("NextDNS rewrite " ++ rw_name rewrite ++ " deleted.")]
        ++ events c
   /\ calls (events r)
      = [delete_call profile_id e; post_call profile_id rewrite])
  /\ (msg <> "Error code: 204" ->
      let r := reconcile profile_id existing (rewrite :: rest) w in
      outcome r = Raise (SystemExit 1)
      /\ exit_code (outcome r) <> 0%Z
      /\ calls (events r) = [delete_call profile_id e]
      /\ count_method POST (events r) = 0).
Proof.
  intros Hm Hdel. split.
  - intros -> r c. subst r c.
    rewrite reconcile_rewrite_first_match, Hm.
    split; [|split].
    + rewrite replace_rewrite_run, Hdel. cbv zeta.
      cbn [String.eqb Ascii.eqb Bool.eqb].
      now destruct (create_or_exit profile_id rewrite w1) as [[o w2] tr].
    + rewrite replace_rewrite_run, Hdel. cbv zeta.
      cbn [String.eqb Ascii.eqb Bool.eqb].
      now destruct (create_or_exit profile_id rewrite w1) as [[o w2] tr].
    + apply replace_rewrite_proceeds. rewrite Hdel. now right.
  - intros Hmsg r. subst r.
    destruct (replace_rewrite_aborts profile_id rewrite e w msg)
      as [Hcalls Hout]; [now rewrite Hdel | assumption |].
    destruct (reconcile_cons_raise profile_id existing rewrite rest w
                (SystemExit 1)) as [-> ->];
      rewrite reconcile_rewrite_first_match, Hm; [assumption|].
    repeat split; [discriminate | assumption |].
    rewrite <- count_method_calls, Hcalls. reflexivity.
Qed.

(** C10: for a desired rewrite with a matching entry, the create call is
    issued exactly when the DELETE returned without raising or raised the
    [ApiError] whose text is "Error code: 204"; in both cases the calls of the
    step are the DELETE and then the POST.  An [ApiError] with any other text
    ends the run with status 1 after the DELETE. *)
Theorem delete_success_recognised profile_id rewrite rest existing e w :
  first_match existing (rw_name rewrite) = Some e ->
  let reply := fst (http_delete (rewrite_url profile_id (ex_id e)) w) in
  let step := reconcile_rewrite profile_id rewrite existing w in
  (In (post_call profile_id rewrite) (events step)
   <-> reply = Body tt \/ reply = ApiError "Error code: 204")
  /\ (reply = Body tt \/ reply = ApiError "Error code: 204" ->
      calls (events step)
      = [delete_call profile_id e; post_call profile_id rewrite])
  /\ (forall msg, reply = ApiError msg -> msg <> "Error code: 204" ->
      let r := reconcile profile_id existing (rewrite :: rest) w in
      outcome r = Raise (SystemExit 1)
      /\ calls (events r) = [delete_call profile_id e]).
Proof.
  intros Hm reply step. subst reply step.
  rewrite reconcile_rewrite_first_match, Hm.
  assert (Hin : forall tr, In (post_call profile_id rewrite) tr
                           <-> In (post_call profile_id rewrite) (calls tr)).
  { intros tr. unfold calls. rewrite filter_In. intuition. }
  split; [|split].
  - rewrite Hin.
    destruct (delete_succeeded_dec
                (fst (http_delete (rewrite_url profile_id (ex_id e)) w)))
      as [Hok|(msg & Hreply & Hmsg)].
    + rewrite (replace_rewrite_proceeds _ _ _ _ Hok).
      split; [intros _; exact Hok | intros _; right; now left].
    + destruct (replace_rewrite_aborts _ rewrite _ _ _ Hreply Hmsg)
        as [-> _].
      split.
      * intros [H|[]]. discriminate.
      * rewrite Hreply. intros [H|H]; [discriminate|].
        injection H as ->. contradiction.
  - apply replace_rewrite_proceeds.
  - intros msg Hreply Hmsg r. subst r.
    destruct (replace_rewrite_aborts _ rewrite _ _ _ Hreply Hmsg)
      as [Hcalls Hout].
    destruct (reconcile_cons_raise profile_id existing rewrite rest w
                (SystemExit 1)) as [-> ->];
      rewrite reconcile_rewrite_first_match, Hm; [assumption|].
    split; [reflexivity | assumption].
Qed.

(** C7 (amended): when several entries of the fetched list have the name of
    a desired rewrite, its step deletes the first of them only: it issues
    exactly one DELETE, on the id of the first match, and no DELETE on the id
    of any other entry.  The first match is recreated, by one POST of the
    desired rewrite right after the DELETE, when that DELETE returns or
    raises "Error code: 204"; when it raises any other [ApiError] the run
    exits with status 1 and nothing is recreated. *)
Theorem only_first_match_replaced profile_id rewrite l1 e l2 w :
  Forall (fun e' => ex_name e' <> rw_name rewrite) l1 ->
  ex_name e = rw_name rewrite ->
  let r := reconcile_rewrite profile_id rewrite (l1 ++ e :: l2) w in
  let reply := fst (http_delete (rewrite_url profile_id (ex_id e)) w) in
  count_method DELETE (events r) = 1
  /\ count_delete (rewrite_url profile_id (ex_id e)) (events r) = 1
  /\ (forall e', In e' (l1 ++ l2) -> ex_id e' <> ex_id e ->
      count_delete (rewrite_url profile_id (ex_id e')) (events r) = 0)
  /\ (delete_succeeded reply ->
      calls (events r)
      = [delete_call profile_id e; post_call profile_id rewrite])
  /\ (forall msg, reply = ApiError msg -> msg <> "Error code: 204" ->
      calls (events r) = [delete_call profile_id e]
      /\ count_method POST (events r) = 0
      /\ outcome r = Raise (SystemExit 1)).
Proof.
  intros Hl1 He r reply.
  assert (Hm : first_match (l1 ++ e :: l2) (rw_name rewrite) = Some e).
  { apply first_match_some. now exists l1, l2. }
  subst r reply. split; [|split; [|split; [|split]]].
  - rewrite reconcile_rewrite_first_match, Hm, <- count_method_calls.
    destruct (replace_rewrite_calls profile_id rewrite e w) as [-> | ->];
      reflexivity.
  - rewrite count_delete_step, Hm. now rewrite String.eqb_refl.
  - intros e' _ Hid. rewrite count_delete_step, Hm.
    destruct (String.eqb_spec (rewrite_url profile_id (ex_id e))
                (rewrite_url profile_id (ex_id e'))) as [E|E]; [|reflexivity].
    apply rewrite_url_inj in E. congruence.
  - rewrite reconcile_rewrite_first_match, Hm.
    apply replace_rewrite_proceeds.
  - intros msg Hreply Hmsg.
    rewrite reconcile_rewrite_first_match, Hm.
    destruct (replace_rewrite_aborts profile_id rewrite e w msg Hreply Hmsg)
      as [Hcalls Hout].
    repeat split; [assumption | | assumption].
    rewrite <- count_method_calls, Hcalls. reflexivity.
Qed.

(** ** The whole loop *)


Lemma call_kinds_calls (tr : list Event) :
  call_kinds (calls tr) = call_kinds tr.
Proof.
  unfold calls. induction tr as [|ev tr IH]; [reflexivity|].
  destruct ev; simpl; now rewrite IH.
Qed.

(** A step that does not end the run issued the calls of the plan. *)
Lemma call_kinds_step profile_id rewrite existing w :
  outcome (reconcile_rewrite profile_id rewrite existing w) = Ret tt ->
  call_kinds (events (reconcile_rewrite profile_id rewrite existing w))
  = plan existing [rewrite].
Proof.
  unfold plan. cbn [flat_map]. rewrite app_nil_r.
  rewrite reconcile_rewrite_first_match.
  destruct (first_match existing (rw_name rewrite)) as [e|]; intros Hout.
  - destruct (delete_succeeded_dec
                (fst (http_delete (rewrite_url profile_id (ex_id e)) w)))
      as [Hok|(msg & Hreply & Hmsg)].
    + rewrite <- call_kinds_calls, (replace_rewrite_proceeds _ _ _ _ Hok).
      reflexivity.
    + destruct (replace_rewrite_aborts _ rewrite _ _ _ Hreply Hmsg)
        as [_ Habort].
      rewrite Habort in Hout. discriminate.
  - rewrite <- call_kinds_calls. revert Hout. unfold bind, logging, emit.
    pose proof (create_or_exit_calls profile_id rewrite w) as Hc.
    destruct (create_or_exit profile_id rewrite w) as [[o w1] tr1].
    intros _. unfold events in *. cbn [snd] in *.
    rewrite calls_app, Hc. reflexivity.
Qed.

Lemma call_kinds_reconcile profile_id existing rewrites w :
  outcome (reconcile profile_id existing rewrites w) = Ret tt ->
  call_kinds (events (reconcile profile_id existing rewrites w))
  = plan existing rewrites.
Proof.
  revert w. induction rewrites as [|rw rest IH]; intros w; [reflexivity|].
  rewrite reconcile_cons.
  pose proof (call_kinds_step profile_id rw existing w) as Hstep.
  destruct (reconcile_rewrite profile_id rw existing w) as [[[[]|ex] w1] tr1].
  - specialize (IH w1).
    destruct (reconcile profile_id existing rest w1) as [[o w2] tr2].
    unfold outcome, events in *. cbn [fst snd] in *.
    intros ->. rewrite call_kinds_app, Hstep, IH by reflexivity.
    unfold plan. cbn [flat_map]. now rewrite app_nil_r.
  - discriminate.
Qed.

(** C9 (amended): the kinds of calls of a completed reconciliation are fixed
    by the desired rewrites and by which of their names are present in the
    fetched list, the contents playing no part: a name that is present is
    deleted and recreated again.  Two completed runs on the same desired
    rewrites issue the same kinds of calls in the same order when every
    desired name is present in both fetched lists or in neither. *)
Theorem same_presence_same_operations profile_id1 profile_id2
  existing1 existing2 rewrites w1 w2 :
  (forall rw, In rw rewrites ->
     (first_match existing1 (rw_name rw) = None
      <-> first_match existing2 (rw_name rw) = None)) ->
  let r1 := reconcile profile_id1 existing1 rewrites w1 in
  let r2 := reconcile profile_id2 existing2 rewrites w2 in
  outcome r1 = Ret tt ->
  outcome r2 = Ret tt ->
  call_kinds (events r1) = plan existing1 rewrites
  /\ call_kinds (events r1) = call_kinds (events r2).
Proof.
  intros Hsame r1 r2 H1 H2. subst r1 r2.
  rewrite !call_kinds_reconcile by assumption.
  split; [reflexivity|].
  unfold plan. clear H1 H2.
  induction rewrites as [|rw rest IH]; [reflexivity|].
  cbn [flat_map]. rewrite IH by (intros rw' Hin; apply Hsame; now right).
  f_equal.
  specialize (Hsame rw (or_introl eq_refl)).
  destruct (first_match existing1 (rw_name rw)),
    (first_match existing2 (rw_name rw)); try reflexivity.
  - pose proof (proj2 Hsame eq_refl). discriminate.
  - pose proof (proj1 Hsame eq_refl). discriminate.
Qed.

End Reconciler.

(** ** Profile resolution *)

(** C6: profile resolution returns the first profile, in the order of the
    fetched list, whose name is the configured name, and none when no profile
    has that name.  The comparison is equality of the two strings as they
    are: a name that differs in case or by a trailing blank is not a match. *)
Theorem find_profile_first_exact (profiles : list Profile)
  (profile_name : string) :
  (forall p, find_profile profiles profile_name = Some p
             <-> exists l1 l2,
                   profiles = l1 ++ p :: l2
                   /\ Forall (fun q => prof_name q <> profile_name) l1
                   /\ prof_name p = profile_name)
  /\ (find_profile profiles profile_name = None
      <-> Forall (fun q => prof_name q <> profile_name) profiles)
  /\ find_profile
       [mkProfile "p1" "Home"; mkProfile "p2" "home ";
        mkProfile "p3" "home"; mkProfile "p4" "home"] "home"
     = Some (mkProfile "p3" "home").
Proof.
  split; [|split].
  - intros p. apply find_name_some.
  - apply find_name_none.
  - reflexivity.
Qed.

Section Main.

Context {World : Type} {nextdns : NextDns World}.

(** The run of [main] on a configuration that passes the checks of lines
    47-79, by the replies of the service. *)
Lemma main_loaded path config env_key profile_name rewrites w :
  truthy env_key = true ->
  cfg_profile_name config = Some profile_name ->
  profile_name <> "" ->
  cfg_rewrites config = Some rewrites ->
  rewrites <> [] ->
  main path (Loaded config) env_key w
  = let name_log := EvLog INFO ("NextDNS Profile Name: " ++ profile_name) in
    match get_profiles w with
    | (ApiError msg, w1) =>
        (Raise (SystemExit 1), w1,
         [name_log; EvGetProfiles;
          EvLog ERROR ("Error getting NextDNS profile: " ++ msg)])
    | (Body profiles, w1) =>
        match find_profile profiles profile_name with
        | None =>
            (Raise (SystemExit 1), w1,
             [name_log; EvGetProfiles;
              EvLog ERROR ("NextDNS profile name " ++ profile_name
                           ++ " not found in list of profiles.")])
        | Some profile =>
            let found_log :=
              EvLog INFO ("NextDNS profile found with name: "
                          ++ prof_name profile ++ " and ID: "
                          ++ prof_id profile ++ ".") in
            let get := EvRequest GET (rewrites_url (prof_id profile)) None in
            match http_get (rewrites_url (prof_id profile)) w1 with
            | (ApiError msg, w2) =>
                (Raise (SystemExit 1), w2,
                 [name_log; EvGetProfiles; found_log; get;
                  EvLog ERROR ("Error getting existing NextDNS rewrites: "
                               ++ msg)])
            | (Body existing, w2) =>
                let '(o, w3, tr) :=
                  reconcile (prof_id profile) existing rewrites w2 in
                (o, w3, [name_log; EvGetProfiles; found_log; get] ++ tr)
            end
        end
    end.
Proof.
  intros Hkey Hname Hnonempty Hrewrites Hsome.
  apply String.eqb_neq in Hnonempty.
  destruct rewrites as [|rw rest]; [contradiction|].
  unfold main, bind, try_except, call, ret, logging, emit, exit, raise.
  rewrite Hkey, Hname, Hrewrites. unfold truthy. rewrite Hnonempty.
  cbn [negb app].
  destruct (get_profiles w) as [[profiles|msg] w1]; [|reflexivity].
  destruct (find_profile profiles profile_name) as [profile|]; [|reflexivity].
  destruct (http_get (rewrites_url (prof_id profile)) w1)
    as [[existing|msg] w2]; [|reflexivity].
  cbn [app].
  destruct (reconcile (prof_id profile) existing (rw :: rest) w2)
    as [[o w3] tr].
  reflexivity.
Qed.

(** C4: when the configured profile name is the name of no profile of the
    fetched list, the run logs the profile-lookup error and exits with status
    1 right after [get_profiles]: no create call and no delete call is
    issued, and the remote state is left as [get_profiles] left it. *)
Theorem missing_profile_aborts path config env_key profile_name rewrites
  profiles w w1 :
  truthy env_key = true ->
  cfg_profile_name config = Some profile_name ->
  profile_name <> "" ->
  cfg_rewrites config = Some rewrites ->
  rewrites <> [] ->
  get_profiles w = (Body profiles, w1) ->
  Forall (fun p => prof_name p <> profile_name) profiles ->
  let r := main path (Loaded config) env_key w in
  outcome r = Raise (SystemExit 1)
  /\ exit_code (outcome r) = 1%Z
  /\ events r
     = [EvLog INFO ("NextDNS Profile Name: " ++ profile_name);
        EvGetProfiles;
        EvLog ERROR ("NextDNS profile name " ++ profile_name
                     ++ " not found in list of profiles.")]
  /\ count_method POST (events r) = 0
  /\ count_method DELETE (events r) = 0
  /\ world_after r = w1.
Proof.
  intros Hkey Hname Hnonempty Hrewrites Hsome Hget Hnone r. subst r.
  rewrite (main_loaded path config env_key profile_name rewrites w)
    by assumption.
  cbv zeta. rewrite Hget.
  apply find_name_none in Hnone. unfold find_profile. rewrite Hnone.
  repeat split.
Qed.

(** C5 (amended): a run in which no profile has the configured name is a
    fatal error: it exits with status 1 after [get_profiles].  A run in which
    one or more profiles have it is not: the first of them in the order of
    the fetched list is taken, whatever follows it in the list, and the run
    goes on to fetch and reconcile the rewrites of that profile. *)
Theorem first_profile_taken path config env_key profile_name rewrites
  profiles w w1 :
  truthy env_key = true ->
  cfg_profile_name config = Some profile_name ->
  profile_name <> "" ->
  cfg_rewrites config = Some rewrites ->
  rewrites <> [] ->
  get_profiles w = (Body profiles, w1) ->
  let r := main path (Loaded config) env_key w in
  (Forall (fun p => prof_name p <> profile_name) profiles ->
   outcome r = Raise (SystemExit 1) /\ calls (events r) = [EvGetProfiles])
  /\ (forall l1 p l2,
        profiles = l1 ++ p :: l2 ->
        Forall (fun q => prof_name q <> profile_name) l1 ->
        prof_name p = profile_name ->
        let get := EvRequest GET (rewrites_url (prof_id p)) None in
        (exists tr, calls (events r) = EvGetProfiles :: get :: tr)
        /\ (forall existing w2,
              http_get (rewrites_url (prof_id p)) w1 = (Body existing, w2) ->
              let loop := reconcile (prof_id p) existing rewrites w2 in
              outcome r = outcome loop
              /\ calls (events r)
                 = EvGetProfiles :: get :: calls (events loop))).
Proof.
  intros Hkey Hname Hnonempty Hrewrites Hsome Hget r. subst r.
  rewrite (main_loaded path config env_key profile_name rewrites w)
    by assumption.
  cbv zeta. rewrite Hget. unfold find_profile. split.
  - intros Hnone. apply find_name_none in Hnone. rewrite Hnone.
    split; reflexivity.
  - intros l1 p l2 Hsplit Hl1 Hp.
    assert (Hfind : find (fun q => String.eqb (prof_name q) profile_name)
                      profiles = Some p).
    { apply find_name_some. now exists l1, l2. }
    rewrite Hfind. split.
    + destruct (http_get (rewrites_url (prof_id p)) w1)
        as [[existing|msg] w2].
      * destruct (reconcile (prof_id p) existing rewrites w2) as [[o w3] tr].
        exists (calls tr). unfold events. cbn [snd].
        rewrite calls_app. reflexivity.
      * exists []. reflexivity.
    + intros existing w2 Hex. rewrite Hex.
      destruct (reconcile (prof_id p) existing rewrites w2) as [[o w3] tr].
      unfold events, outcome. cbn [fst snd].
      rewrite calls_app. split; reflexivity.
Qed.

End Main.

(** ** The theorems on concrete runs *)

Module Runs.

Import Double.

Lemma create_when_absent_witness :
  Forall (fun e => ex_name e <> rw_name router) [n1]
  /\ calls (events (reconcile_rewrite "p1" router [n1] (home [n1] Status204)))
     = [post_call "p1" router].
Proof.
  assert (H : Forall (fun e => ex_name e <> rw_name router) [n1])
    by (repeat constructor; discriminate).
  split; [exact H|].
  exact (proj1 (create_when_absent "p1" router [n1] (home [n1] Status204) H)).
Defined.

(** C1, as it is stated, fails when the DELETE itself fails: the entry named
    like the desired rewrite is found, the DELETE is issued and raises
    "Error code: 500", and the run exits without any create call. *)
Lemma replace_without_create :
  let r := reconcile_rewrite "p1" router [r9]
             (home [r9] (Failing "Error code: 500")) in
  first_match [r9] (rw_name router) = Some r9
  /\ calls (events r) = [delete_call "p1" r9]
  /\ count_method POST (events r) = 0
  /\ outcome r = Raise (SystemExit 1).
Proof. vm_compute. repeat split. Qed.

Lemma replace_when_present_witness :
  first_match [n1; r9; r10] (rw_name router) = Some r9
  /\ calls (events (reconcile_rewrite "p1" router [n1; r9; r10]
                      (home [n1; r9; r10] Status204)))
     = [delete_call "p1" r9; post_call "p1" router].
Proof.
  split; [reflexivity|].
  apply (replace_when_present "p1" router [n1; r9; r10] r9
           (home [n1; r9; r10] Status204) eq_refl).
  right. reflexivity.
Defined.

Lemma delete_status_decides_witness :
  (let w := home [r9] Status204 in
   http_delete (rewrite_url "p1" "r9") w
   = (ApiError "Error code: 204", home [] Status204)
   /\ calls (events (reconcile_rewrite "p1" router [r9] w))
      = [delete_call "p1" r9; post_call "p1" router])
  /\ (let w := home [r9] (Failing "Error code: 500") in
      http_delete (rewrite_url "p1" "r9") w = (ApiError "Error code: 500", w)
      /\ outcome (reconcile "p1" [r9] [router; nas] w) = Raise (SystemExit 1)
      /\ calls (events (reconcile "p1" [r9] [router; nas] w))
         = [delete_call "p1" r9]).
Proof.
  split.
  - assert (Hdel : http_delete (rewrite_url "p1" (ex_id r9))
                     (home [r9] Status204)
                   = (ApiError "Error code: 204", home [] Status204))
      by (vm_compute; reflexivity).
    split; [exact Hdel|].
    apply (delete_status_decides "p1" router [] [r9] r9 (home [r9] Status204)
             "Error code: 204" (home [] Status204) eq_refl Hdel).
    reflexivity.
  - assert (Hdel : http_delete (rewrite_url "p1" (ex_id r9))
                     (home [r9] (Failing "Error code: 500"))
                   = (ApiError "Error code: 500",
                      home [r9] (Failing "Error code: 500")))
      by (vm_compute; reflexivity).
    split; [exact Hdel|].
    pose proof (proj2 (delete_status_decides "p1" router [nas] [r9] r9
                         (home [r9] (Failing "Error code: 500"))
                         "Error code: 500"
                         (home [r9] (Failing "Error code: 500"))
                         eq_refl Hdel)) as H.
    cbv zeta in H.
    assert (Hne : "Error code: 500" <> "Error code: 204") by discriminate.
    destruct (H Hne) as (Hout & _ & Hcalls & _).
    split; assumption.
Defined.

Lemma delete_success_recognised_witness :
  let w := home [r9] Silent in
  first_match [r9] (rw_name router) = Some r9
  /\ fst (http_delete (rewrite_url "p1" "r9") w) = Body tt
  /\ calls (events (reconcile_rewrite "p1" router [r9] w))
     = [delete_call "p1" r9; post_call "p1" router].
Proof.
  split; [reflexivity|]. split; [reflexivity|].
  apply (delete_success_recognised "p1" router [] [r9] r9 (home [r9] Silent)
           eq_refl).
  left. reflexivity.
Defined.

(** C7, as it is stated, fails when the DELETE itself fails: of the two
    entries named like the desired rewrite the first, "r9", is the target of
    the only DELETE, which raises "Error code: 500"; the run exits and nothing
    is recreated. *)
Lemma first_match_not_recreated :
  let r := reconcile_rewrite "p1" router [n1; r9; r10]
             (home [n1; r9; r10] (Failing "Error code: 500")) in
  ex_name r9 = rw_name router
  /\ ex_name r10 = rw_name router
  /\ calls (events r) = [delete_call "p1" r9]
  /\ count_method POST (events r) = 0
  /\ outcome r = Raise (SystemExit 1).
Proof. vm_compute. repeat split. Qed.

Lemma only_first_match_replaced_witness :
  let w := home [n1; r9; r10] Status204 in
  let r := reconcile_rewrite "p1" router ([n1] ++ r9 :: [r10]) w in
  Forall (fun e' => ex_name e' <> rw_name router) [n1]
  /\ ex_name r9 = rw_name router
  /\ ex_name r10 = rw_name router
  /\ count_delete (rewrite_url "p1" "r10") (events r) = 0
  /\ calls (events r) = [delete_call "p1" r9; post_call "p1" router].
Proof.
  cbv zeta.
  assert (H : Forall (fun e' => ex_name e' <> rw_name router) [n1])
    by (repeat constructor; discriminate).
  split; [exact H|]. split; [reflexivity|]. split; [reflexivity|].
  destruct (only_first_match_replaced "p1" router [n1] r9 [r10]
              (home [n1; r9; r10] Status204) H eq_refl)
    as (_ & _ & Hothers & Hproceeds & _).
  split.
  - apply (Hothers r10).
    + right. now left.
    + discriminate.
  - apply Hproceeds. right. reflexivity.
Defined.



(** C9, as it is stated, fails when the first run creates a rewrite that did
    not exist: the second run finds it and deletes it before creating it. *)
Lemma second_run_differs :
  let r1 := main "config.yaml" (home_config [router]) (Some "key")
              (home [] Status204) in
  let r2 := main "config.yaml" (home_config [router]) (Some "key")
              (world_after r1) in
  exit_code (outcome r1) = 0%Z
  /\ exit_code (outcome r2) = 0%Z
  /\ call_kinds (events r1) = [KProfiles; KMethod GET; KMethod POST]
  /\ call_kinds (events r2)
     = [KProfiles; KMethod GET; KMethod DELETE; KMethod POST]
  /\ call_kinds (events r1) <> call_kinds (events r2).
Proof. vm_compute. repeat split. discriminate. Qed.

Lemma same_presence_same_operations_witness :
  let w1 := home [r9] Status204 in
  let r1 := reconcile "p1" [r9] [router] w1 in
  let w2 := world_after r1 in
  let r2 := reconcile "p1" (srv_rewrites w2) [router] w2 in
  outcome r1 = Ret tt
  /\ outcome r2 = Ret tt
  /\ call_kinds (events r1) = [KMethod DELETE; KMethod POST]
  /\ call_kinds (events r1) = call_kinds (events r2).
Proof.
  cbv zeta.
  split; [reflexivity|]. split; [reflexivity|].
  apply (same_presence_same_operations "p1" "p1" [r9]
           (srv_rewrites (world_after (reconcile "p1" [r9] [router]
                                         (home [r9] Status204))))
           [router] (home [r9] Status204)).
  - intros rw [<-|[]]. split; discriminate.
  - reflexivity.
  - reflexivity.
Defined.

Lemma missing_profile_aborts_witness :
  let config := mkConfig (Some "work") (Some [router]) in
  let r := main "config.yaml" (Loaded config) (Some "key")
             (home [r9] Status204) in
  Forall (fun p => prof_name p <> "work") [mkProfile "p1" "home"]
  /\ exit_code (outcome r) = 1%Z
  /\ count_method POST (events r) = 0
  /\ count_method DELETE (events r) = 0.
Proof.
  cbv zeta.
  assert (H : Forall (fun p => prof_name p <> "work") [mkProfile "p1" "home"])
    by (repeat constructor; discriminate).
  split; [exact H|].
  assert (Hname : "work" <> "") by discriminate.
  assert (Hrewrites : [router] <> []) by discriminate.
  assert (Hget : get_profiles (home [r9] Status204)
                 = (Body [mkProfile "p1" "home"], home [r9] Status204))
    by reflexivity.
  destruct (missing_profile_aborts "config.yaml"
              (mkConfig (Some "work") (Some [router])) (Some "key") "work"
              [router] [mkProfile "p1" "home"] (home [r9] Status204)
              (home [r9] Status204) eq_refl eq_refl Hname eq_refl Hrewrites
              Hget H)
    as (_ & Hcode & _ & Hpost & Hdelete & _).
  repeat split; assumption.
Defined.

(** C5, as it is stated, fails on its second half: with two profiles named
    "home" the run is not a fatal error; it works on the first, "p1", and
    ends with status 0. *)
Lemma two_profiles_not_fatal :
  let r := main "config.yaml" (home_config [router]) (Some "key") twins in
  length (filter (fun p => String.eqb (prof_name p) "home")
            (srv_profiles twins)) = 2
  /\ exit_code (outcome r) = 0%Z
  /\ calls (events r)
     = [EvGetProfiles;
        EvRequest GET (rewrites_url "p1") None;
        post_call "p1" router].
Proof. vm_compute. repeat split. Qed.

Lemma first_profile_taken_witness :
  let r := main "config.yaml" (home_config [router]) (Some "key") twins in
  outcome r = outcome (reconcile "p1" [] [router] twins)
  /\ calls (events r)
     = EvGetProfiles :: EvRequest GET (rewrites_url "p1") None
       :: calls (events (reconcile "p1" [] [router] twins)).
Proof.
  cbv zeta.
  assert (Hname : "home" <> "") by discriminate.
  assert (Hrewrites : [router] <> []) by discriminate.
  assert (Hget : get_profiles twins = (Body (srv_profiles twins), twins))
    by reflexivity.
  assert (Hex : http_get (rewrites_url "p1") twins = (Body [], twins))
    by reflexivity.
  pose proof (proj2 (first_profile_taken "config.yaml"
                       (mkConfig (Some "home") (Some [router])) (Some "key")
                       "home" [router] (srv_profiles twins) twins twins
                       eq_refl eq_refl Hname eq_refl Hrewrites Hget)
                [] (mkProfile "p1" "home") [mkProfile "p2" "home"]
                eq_refl (Forall_nil _) eq_refl) as H.
  cbv zeta in H. destruct H as [_ H].
  exact (H [] twins Hex).
Defined.

End Runs.

(** * The rest of the program *)

(** ** Traces, continued *)

Lemma planned_calls_cons profile_id existing rewrite rest :
  planned_calls profile_id existing (rewrite :: rest)
  = planned_calls profile_id existing [rewrite]
    ++ planned_calls profile_id existing rest.
Proof. unfold planned_calls. cbn [flat_map]. now rewrite app_nil_r. Qed.

Section Creation.

Context {World : Type} {nextdns : NextDns World}.

Implicit Types (w : World) (rewrite : RewriteSpec) (e : RemoteRewrite).

(** X1: [create_rewrite] issues one POST on the rewrites of the profile, with
    the rewrite as its body, and leaves the world as the POST left it.  It
    returns the id of the reply; when the POST raises [ApiError] it raises
    [ApiError] again, the text prefixed with "Error creating NextDNS
    rewrite: ", and it never leaves through [exit]. *)
Theorem create_rewrite_contract profile_id rewrite w :
  let r := create_rewrite profile_id rewrite w in
  let reply := http_post (rewrites_url profile_id) rewrite w in
  events r
  = [EvRequest POST (rewrites_url profile_id) (Some rewrite)]
  /\ world_after r = snd reply
  /\ (forall rewrite_id, fst reply = Body rewrite_id ->
      outcome r = Ret rewrite_id)
  /\ (forall msg, fst reply = ApiError msg ->
      outcome r
      = Raise (ExnApiError ("Error creating NextDNS rewrite: " ++ msg)))
  /\ (forall code, outcome r <> Raise (SystemExit code)).
Proof.
  cbv zeta. unfold create_rewrite, try_except, call, raise.
  destruct (http_post (rewrites_url profile_id) rewrite w) as [[id|msg] w1];
    cbn; repeat split; intros; congruence.
Qed.

End Creation.

(** ** The loop as a whole *)

Section Loop.

Context {World : Type} {nextdns : NextDns World}.

Implicit Types (w : World) (rewrite : RewriteSpec) (e : RemoteRewrite).

Lemma reconcile_rewrite_planned profile_id rewrite existing w :
  let r := reconcile_rewrite profile_id rewrite existing w in
  exists rest,
    planned_calls profile_id existing [rewrite] = calls (events r) ++ rest
    /\ (outcome r = Ret tt -> rest = []).
Proof.
  cbv zeta. unfold planned_calls. cbn [flat_map]. rewrite app_nil_r.
  rewrite reconcile_rewrite_first_match.
  destruct (first_match existing (rw_name rewrite)) as [e|].
  - destruct (delete_succeeded_dec
                (fst (http_delete (rewrite_url profile_id (ex_id e)) w)))
      as [Hok|(msg & Hreply & Hmsg)].
    + exists []. rewrite (replace_rewrite_proceeds _ _ _ _ Hok).
      split; reflexivity.
    + destruct (replace_rewrite_aborts _ rewrite _ _ _ Hreply Hmsg)
        as [-> ->].
      exists [post_call profile_id rewrite]. split; [reflexivity|discriminate].
  - exists []. split; [|reflexivity].
    unfold bind, logging, emit.
    pose proof (create_or_exit_calls profile_id rewrite w) as Hc.
    destruct (create_or_exit profile_id rewrite w) as [[o w1] tr1].
    unfold events in *. cbn [snd] in *. rewrite calls_app, Hc. reflexivity.
Qed.

Lemma reconcile_planned profile_id existing rewrites w :
  let r := reconcile profile_id existing rewrites w in
  exists rest,
    planned_calls profile_id existing rewrites = calls (events r) ++ rest
    /\ (outcome r = Ret tt -> rest = []).
Proof.
  cbv zeta. revert w. induction rewrites as [|rw tl IH]; intros w.
  - exists []. split; reflexivity.
  - rewrite planned_calls_cons, reconcile_cons.
    destruct (reconcile_rewrite_planned profile_id rw existing w)
      as (rest1 & Hplan1 & Hdone1).
    destruct (reconcile_rewrite profile_id rw existing w)
      as [[[[]|ex] w1] tr1]; unfold events, outcome in Hplan1, Hdone1;
      cbn [fst snd] in Hplan1, Hdone1.
    + rewrite (Hdone1 eq_refl), app_nil_r in Hplan1.
      destruct (IH w1) as (rest2 & Hplan2 & Hdone2).
      destruct (reconcile profile_id existing tl w1) as [[o w2] tr2].
      unfold events, outcome in *. cbn [fst snd] in *.
      exists rest2. split; [|assumption].
      now rewrite Hplan1, Hplan2, calls_app, app_assoc.
    + exists (rest1 ++ planned_calls profile_id existing tl).
      unfold events, outcome. cbn [fst snd].
      split; [|discriminate]. now rewrite Hplan1, app_assoc.
Qed.

(** X2: whatever the service answers, the calls of the loop are an initial
    part of the planned calls: for each desired rewrite in configuration
    order, the DELETE of its first match (if any) and then its POST.  When the
    loop completes they are all of them. *)
Theorem reconcile_follows_plan profile_id existing rewrites w :
  let r := reconcile profile_id existing rewrites w in
  exists rest,
    planned_calls profile_id existing rewrites = calls (events r) ++ rest
    /\ (outcome r = Ret tt -> rest = []).
Proof. apply reconcile_planned. Qed.

Lemma in_planned_calls profile_id existing rewrites ev :
  In ev (planned_calls profile_id existing rewrites) ->
  exists rw, In rw rewrites
             /\ (ev = post_call profile_id rw
                 \/ exists e, In e existing
                              /\ ex_name e = rw_name rw
                              /\ ev = delete_call profile_id e).
Proof.
  unfold planned_calls. rewrite in_flat_map. intros (rw & Hrw & Hev).
  exists rw. split; [assumption|].
  destruct (first_match existing (rw_name rw)) as [e|] eqn:Hm.
  - apply first_match_some in Hm. destruct Hm as (l1 & l2 & -> & _ & Hname).
    destruct Hev as [<-|[<-|[]]].
    + right. exists e. split; [apply in_elt | now split].
    + now left.
  - destruct Hev as [<-|[]]. now left.
Qed.

(** X3: every call of the loop is a call for one of the desired rewrites:
    the POST of that rewrite on the profile, or the DELETE of a fetched entry
    that has the name of that rewrite.  So the loop issues no GET, posts
    nothing but desired rewrites, and deletes no entry whose name is not
    configured. *)
Theorem reconcile_calls_are_planned profile_id existing rewrites w ev :
  In ev (calls (events (reconcile profile_id existing rewrites w))) ->
  exists rw, In rw rewrites
             /\ (ev = post_call profile_id rw
                 \/ exists e, In e existing
                              /\ ex_name e = rw_name rw
                              /\ ev = delete_call profile_id e).
Proof.
  intros Hev.
  destruct (reconcile_planned profile_id existing rewrites w)
    as (rest & Hplan & _).
  apply (in_planned_calls profile_id existing rewrites).
  rewrite Hplan. apply in_or_app. now left.
Qed.

Lemma planned_posts profile_id existing rewrites :
  filter (is_request POST) (planned_calls profile_id existing rewrites)
  = map (post_call profile_id) rewrites.
Proof.
  induction rewrites as [|rw tl IH]; [reflexivity|].
  rewrite planned_calls_cons, filter_app, IH.
  unfold planned_calls. cbn [flat_map].
  now destruct (first_match existing (rw_name rw)).
Qed.

Lemma filter_calls (f : Event -> bool) (tr : list Event) :
  (forall level msg, f (EvLog level msg) = false) ->
  filter f (calls tr) = filter f tr.
Proof.
  intros Hlog. unfold calls. induction tr as [|ev tr IH]; [reflexivity|].
  destruct ev as [|m u d|level msg]; cbn [filter is_call].
  - now rewrite IH.
  - now rewrite IH.
  - now rewrite Hlog.
Qed.

(** X4: a loop that completes has created every desired rewrite exactly
    once, in configuration order: its POST calls are the POSTs of the desired
    rewrites, one after the other.  A loop that does not complete has created
    an initial part of them, so it never issues more POST or DELETE calls
    than there are desired rewrites. *)
Theorem reconcile_creates_in_order profile_id existing rewrites w :
  let r := reconcile profile_id existing rewrites w in
  (outcome r = Ret tt ->
   filter (is_request POST) (events r) = map (post_call profile_id) rewrites)
  /\ (exists later,
        map (post_call profile_id) rewrites
        = filter (is_request POST) (events r) ++ later)
  /\ count_method POST (events r) <= length rewrites
  /\ count_method DELETE (events r) <= length rewrites.
Proof.
  cbv zeta.
  destruct (reconcile_planned profile_id existing rewrites w)
    as (rest & Hplan & Hdone).
  assert (Hposts : map (post_call profile_id) rewrites
                   = filter (is_request POST)
                       (events (reconcile profile_id existing rewrites w))
                     ++ filter (is_request POST) rest).
  { rewrite <- (planned_posts profile_id existing), Hplan, filter_app.
    f_equal. now apply filter_calls. }
  split; [|split; [|split]].
  - intros Hret. rewrite (Hdone Hret) in Hposts.
    cbn [filter] in Hposts. now rewrite app_nil_r in Hposts.
  - now exists (filter (is_request POST) rest).
  - unfold count_method.
    rewrite <- (length_map (post_call profile_id) rewrites), Hposts, length_app.
    lia.
  - rewrite <- count_method_calls.
    assert (Hle : count_method DELETE
                    (planned_calls profile_id existing rewrites)
                  <= length rewrites).
    { clear. induction rewrites as [|rw tl IH]; [apply Nat.le_refl|].
      rewrite planned_calls_cons, count_method_app.
      unfold planned_calls at 1. cbn [flat_map length].
      destruct (first_match existing (rw_name rw)); cbn; lia. }
    rewrite Hplan, count_method_app in Hle. lia.
Qed.

Lemma bind_ret_tt (k : Run World unit) w :
  (ret tt ;; k) w = k w.
Proof. unfold bind, ret. now destruct (k w) as [[o w1] tr]. Qed.

(** X5: reconciling a list of rewrites that is two lists one after the other
    is reconciling the first and then, in the world it left and only if it
    completed, the second. *)
Theorem reconcile_app profile_id existing rewrites1 rewrites2 w :
  reconcile profile_id existing (rewrites1 ++ rewrites2) w
  = (reconcile profile_id existing rewrites1 ;;
     reconcile profile_id existing rewrites2) w.
Proof.
  revert w. induction rewrites1 as [|rw tl IH]; intros w.
  - cbn [app reconcile]. now rewrite bind_ret_tt.
  - cbn [app]. rewrite reconcile_cons. unfold bind at 1.
    rewrite reconcile_cons.
    destruct (reconcile_rewrite profile_id rw existing w)
      as [[[[]|ex] w1] tr1]; [|reflexivity].
    rewrite IH. unfold bind.
    destruct (reconcile profile_id existing tl w1) as [[[[]|ex] w2] tr2];
      [|reflexivity].
    destruct (reconcile profile_id existing rewrites2 w2) as [[o w3] tr3].
    now rewrite app_assoc.
Qed.

End Loop.

(** X6: the remote contents play no part in the loop.  Two fetched lists
    with the same ids and names, entry by entry, give the same run: the same
    calls, logs, outcome and final world, whatever the contents are. *)
Theorem reconcile_ignores_content {World : Type} {nextdns : NextDns World}
  profile_id existing1 existing2 rewrites (w : World) :
  Forall2 (fun e1 e2 => ex_id e1 = ex_id e2 /\ ex_name e1 = ex_name e2)
    existing1 existing2 ->
  reconcile profile_id existing1 rewrites w
  = reconcile profile_id existing2 rewrites w.
Proof.
  intros Hsame.
  assert (Hstep : forall rw,
             reconcile_rewrite profile_id rw existing1
             = reconcile_rewrite profile_id rw existing2).
  { intros rw. induction Hsame as [|e1 e2 l1 l2 [Hid Hname] _ IH];
      [reflexivity|].
    cbn [reconcile_rewrite]. rewrite Hname, IH.
    unfold replace_rewrite. now rewrite Hid. }
  revert w. induction rewrites as [|rw tl IH]; intros w; [reflexivity|].
  rewrite !reconcile_cons, Hstep.
  destruct (reconcile_rewrite profile_id rw existing2 w)
    as [[[[]|ex] w1] tr1]; [|reflexivity].
  now rewrite IH.
Qed.

Section Failures.

Context {World : Type} {nextdns : NextDns World}.

Implicit Types (w : World) (rewrite : RewriteSpec) (e : RemoteRewrite).

(** X7: there is no rollback.  When the DELETE of the matched entry
    succeeded and the POST that follows raises [ApiError], the run logs the
    error, with the prefix of [create_rewrite] and the prefix of its caller,
    and exits with status 1 in the world the failed POST left: the entry stays
    deleted, no call follows the POST and no later rewrite is handled. *)
Theorem failed_create_after_delete profile_id rewrite rest existing e w msg w2 :
  first_match existing (rw_name rewrite) = Some e ->
  delete_succeeded (fst (http_delete (rewrite_url profile_id (ex_id e)) w)) ->
  http_post (rewrites_url profile_id) rewrite
    (snd (http_delete (rewrite_url profile_id (ex_id e)) w))
  = (ApiError msg, w2) ->
  let r := reconcile profile_id existing (rewrite :: rest) w in
  outcome r = Raise (SystemExit 1)
  /\ world_after r = w2
  /\ calls (events r)
     = [delete_call profile_id e; post_call profile_id rewrite]
  /\ last (events r) EvGetProfiles
     = EvLog ERROR ("Error creating NextDNS rewrite: "
                    ++ "Error creating NextDNS rewrite: " ++ msg).
Proof.
  intros Hm Hok Hpost r. subst r.
  rewrite reconcile_cons, reconcile_rewrite_first_match, Hm,
    replace_rewrite_run.
  cbv zeta.
  destruct (http_delete (rewrite_url profile_id (ex_id e)) w)
    as [reply w1]. cbn [fst snd] in Hok, Hpost.
  destruct Hok as [-> | ->]; cbn [String.eqb Ascii.eqb Bool.eqb];
    rewrite create_or_exit_run, Hpost; repeat split.
Qed.

(** X8: a desired rewrite with no match whose POST raises [ApiError] ends the
    run: the error is logged and the run exits with status 1 after that one
    call, without handling the rewrites that follow. *)
Theorem failed_create_when_absent profile_id rewrite rest existing w msg w1 :
  first_match existing (rw_name rewrite) = None ->
  http_post (rewrites_url profile_id) rewrite w = (ApiError msg, w1) ->
  reconcile profile_id existing (rewrite :: rest) w
  = (Raise (SystemExit 1), w1,
     [EvLog INFO ("NextDNS rewrite " ++ rw_name rewrite
                  ++ " does not exist. Creating...");
      post_call profile_id rewrite;
      EvLog ERROR ("Error creating NextDNS rewrite: "
                   ++ "Error creating NextDNS rewrite: " ++ msg)]).
Proof.
  intros Hm Hpost.
  rewrite reconcile_cons, reconcile_rewrite_first_match, Hm.
  unfold bind, logging, emit. rewrite create_or_exit_run, Hpost.
  reflexivity.
Qed.

End Failures.

(** ** The checks before the loop *)

Section Checks.

Context {World : Type} {nextdns : NextDns World}.

Implicit Types (w : World) (config : Config).

(** X9: when the configuration file cannot be loaded the run logs the cause
    (the file is missing, it is not valid YAML, or anything else) and exits
    with status 1 without any API call and without looking at the API key. *)
Theorem config_not_loaded_exits path file env_key w :
  (forall config, file <> Loaded config) ->
  main path file env_key w
  = (Raise (SystemExit 1), w,
     [EvLog ERROR
        match file with
        | FileNotFoundError => "Configuration file not found: " ++ path
        | YAMLError e => "Error parsing YAML configuration: " ++ e
        | OtherException e => "Error loading configuration: " ++ e
        | Loaded _ => ""
        end]).
Proof.
  intros Hfile. destruct file as [| e | e | config]; try reflexivity.
  now destruct (Hfile config).
Qed.

(** X10: a missing API key and an empty one are the same: the run logs that
    the variable is not set and exits with status 1, before it looks at the
    contents of the configuration and without any API call. *)
Theorem missing_api_key_exits path config env_key w :
  truthy env_key = false ->
  main path (Loaded config) env_key w
  = (Raise (SystemExit 1), w,
     [EvLog ERROR "NEXTDNS_API_KEY environment variable not set."]).
Proof.
  intros Hkey. unfold main, bind, ret, logging, emit, exit, raise.
  rewrite Hkey. reflexivity.
Qed.

(** X11: a configuration without [profile_name], or with an empty one, ends
    the run with status 1 after one error record, whatever its rewrites are
    and without any API call. *)
Theorem missing_profile_name_exits path config env_key w :
  truthy env_key = true ->
  truthy (cfg_profile_name config) = false ->
  main path (Loaded config) env_key w
  = (Raise (SystemExit 1), w,
     [EvLog ERROR "NextDNS Profile Name not found in configuration file."]).
Proof.
  intros Hkey Hname. unfold main, bind, ret, logging, emit, exit, raise.
  rewrite Hkey.
  destruct (cfg_profile_name config) as [profile_name|]; [|reflexivity].
  rewrite Hname. reflexivity.
Qed.

(** X12: a configuration without [rewrites], or with an empty list, ends the
    run with status 1 after the profile name was logged, without any API
    call: a run never fetches anything when there is nothing to reconcile. *)
Theorem no_rewrites_exits path config env_key profile_name w :
  truthy env_key = true ->
  cfg_profile_name config = Some profile_name ->
  profile_name <> "" ->
  cfg_rewrites config = None \/ cfg_rewrites config = Some [] ->
  main path (Loaded config) env_key w
  = (Raise (SystemExit 1), w,
     [EvLog INFO ("NextDNS Profile Name: " ++ profile_name);
      EvLog ERROR "No NextDNS rewrites found in configuration file."]).
Proof.
  intros Hkey Hname Hnonempty Hrewrites.
  apply String.eqb_neq in Hnonempty.
  unfold main, bind, ret, logging, emit, exit, raise.
  rewrite Hkey, Hname. unfold truthy. rewrite Hnonempty.
  destruct Hrewrites as [-> | ->]; reflexivity.
Qed.

(** X13: when [get_profiles] raises [ApiError] the run logs the error and
    exits with status 1; [get_profiles] is its only call. *)
Theorem get_profiles_failure_exits path config env_key profile_name rewrites
  w msg w1 :
  truthy env_key = true ->
  cfg_profile_name config = Some profile_name ->
  profile_name <> "" ->
  cfg_rewrites config = Some rewrites ->
  rewrites <> [] ->
  get_profiles w = (ApiError msg, w1) ->
  main path (Loaded config) env_key w
  = (Raise (SystemExit 1), w1,
     [EvLog INFO ("NextDNS Profile Name: " ++ profile_name);
      EvGetProfiles;
      EvLog ERROR ("Error getting NextDNS profile: " ++ msg)]).
Proof.
  intros Hkey Hname Hnonempty Hrewrites Hsome Hget.
  rewrite (main_loaded path config env_key profile_name rewrites w)
    by assumption.
  cbv zeta. now rewrite Hget.
Qed.

(** X14: when the GET of the existing rewrites raises [ApiError] the run
    logs the error and exits with status 1: it has fetched the profiles and
    tried to fetch the rewrites of the first matching profile, and it has
    changed nothing. *)
Theorem get_rewrites_failure_exits path config env_key profile_name rewrites
  profiles profile w w1 msg w2 :
  truthy env_key = true ->
  cfg_profile_name config = Some profile_name ->
  profile_name <> "" ->
  cfg_rewrites config = Some rewrites ->
  rewrites <> [] ->
  get_profiles w = (Body profiles, w1) ->
  find_profile profiles profile_name = Some profile ->
  http_get (rewrites_url (prof_id profile)) w1 = (ApiError msg, w2) ->
  let r := main path (Loaded config) env_key w in
  outcome r = Raise (SystemExit 1)
  /\ world_after r = w2
  /\ calls (events r)
     = [EvGetProfiles; EvRequest GET (rewrites_url (prof_id profile)) None]
  /\ last (events r) EvGetProfiles
     = EvLog ERROR ("Error getting existing NextDNS rewrites: " ++ msg).
Proof.
  intros Hkey Hname Hnonempty Hrewrites Hsome Hget Hfind Hex r. subst r.
  rewrite (main_loaded path config env_key profile_name rewrites w)
    by assumption.
  cbv zeta. rewrite Hget, Hfind, Hex. repeat split.
Qed.

(** Either the input is rejected before any call, or it passes the checks
    of lines 47-79. *)
Lemma main_cases path file env_key w :
  let r := main path file env_key w in
  (outcome r = Raise (SystemExit 1) /\ world_after r = w
   /\ calls (events r) = [] /\ ends_with_error (events r))
  \/ (exists config profile_name rewrites,
        file = Loaded config
        /\ truthy env_key = true
        /\ cfg_profile_name config = Some profile_name
        /\ profile_name <> ""
        /\ cfg_rewrites config = Some rewrites
        /\ rewrites <> []).
Proof.
  cbv zeta.
  assert (Hone : forall msg,
             ends_with_error [EvLog ERROR msg]).
  { intros msg. now exists [], msg. }
  assert (Htwo : forall info msg,
             ends_with_error [EvLog INFO info; EvLog ERROR msg]).
  { intros info msg. now exists [EvLog INFO info], msg. }
  destruct file as [| e | e | config];
    try (left; repeat split; apply Hone).
  destruct (truthy env_key) eqn:Hkey.
  2:{ left. unfold main, bind, ret, logging, emit, exit, raise.
      rewrite Hkey. repeat split. apply Hone. }
  destruct (cfg_profile_name config) as [profile_name|] eqn:Hpn.
  2:{ left. unfold main, bind, ret, logging, emit, exit, raise.
      rewrite Hkey, Hpn. repeat split. apply Hone. }
  destruct (String.eqb_spec profile_name "") as [->|Hnonempty].
  { left. unfold main, bind, ret, logging, emit, exit, raise.
    rewrite Hkey, Hpn. repeat split. apply Hone. }
  destruct (cfg_rewrites config) as [[|rw tl]|] eqn:Hrw.
  2:{ right. exists config, profile_name, (rw :: tl).
      repeat split; try assumption. discriminate. }
  all: left; unfold main, bind, ret, logging, emit, exit, raise;
    rewrite Hkey, Hpn, Hrw; unfold truthy;
    rewrite (proj2 (String.eqb_neq _ _) Hnonempty);
    repeat split; apply Htwo.
Qed.

End Checks.

(** ** Whole runs *)

Section WholeRun.

Context {World : Type} {nextdns : NextDns World}.

Implicit Types (w : World) (config : Config).

Lemma reconcile_mutations profile_id existing rewrites w :
  Forall (fun ev => is_mutation ev = true)
    (calls (events (reconcile profile_id existing rewrites w))).
Proof.
  apply Forall_forall. intros ev Hev.
  destruct (reconcile_planned profile_id existing rewrites w)
    as (rest & Hplan & _).
  destruct (in_planned_calls profile_id existing rewrites ev)
    as (rw & _ & [-> | (e & _ & _ & ->)]); try reflexivity.
  rewrite Hplan. apply in_or_app. now left.
Qed.

Lemma mutations_no_get (tr : list Event) :
  Forall (fun ev => is_mutation ev = true) tr -> count_method GET tr = 0.
Proof.
  unfold count_method. induction 1 as [|ev tr Hev _ IH]; [reflexivity|].
  cbn [filter]. destruct ev as [|[] u d|level msg]; try discriminate;
    exact IH.
Qed.

(** X16: a run of [main] fetches before it changes anything, and fetches
    once.  Its calls are none at all, or [get_profiles] alone, or
    [get_profiles], the GET of the rewrites of one profile and after these
    only POST and DELETE calls: the list of rewrites is never fetched
    again. *)
Theorem main_fetches_once path file env_key w :
  let c := calls (events (main path file env_key w)) in
  (c = []
   \/ c = [EvGetProfiles]
   \/ exists profile tr,
        c = EvGetProfiles
            :: EvRequest GET (rewrites_url (prof_id profile)) None :: tr
        /\ Forall (fun ev => is_mutation ev = true) tr)
  /\ count_method GET c <= 1.
Proof.
  cbv zeta.
  destruct (main_cases path file env_key w)
    as [(_ & _ & -> & _)
       |(config & profile_name & rewrites & -> & Hkey & Hname & Hnonempty
         & Hrewrites & Hsome)].
  { split; [now left | apply Nat.le_0_l]. }
  rewrite (main_loaded path config env_key profile_name rewrites w)
    by assumption.
  cbv zeta.
  destruct (get_profiles w) as [[profiles|msg] w1].
  2:{ split; [right; now left | apply Nat.le_0_l]. }
  destruct (find_profile profiles profile_name) as [profile|].
  2:{ split; [right; now left | apply Nat.le_0_l]. }
  destruct (http_get (rewrites_url (prof_id profile)) w1)
    as [[existing|msg] w2].
  2:{ split; [|apply Nat.le_refl].
      right; right. exists profile, []. split; [reflexivity|constructor]. }
  pose proof (reconcile_mutations (prof_id profile) existing rewrites w2)
    as Hloop.
  destruct (reconcile (prof_id profile) existing rewrites w2) as [[o w3] tr].
  unfold events in *. cbn [snd] in *. rewrite calls_app.
  split.
  - right; right. exists profile, (calls tr). split; [reflexivity|assumption].
  - rewrite count_method_app, (mutations_no_get _ Hloop). apply Nat.le_refl.
Qed.

(** X17: the calls of a run of [main] that returns are [get_profiles], the
    GET of the rewrites of the first profile of the configured name and then
    the planned calls on that profile: for each desired rewrite in
    configuration order, the DELETE of its first match in the fetched list,
    if there is one, and its POST. *)
Theorem main_completed_calls path config env_key profile_name rewrites
  profiles profile existing w w1 w2 :
  truthy env_key = true ->
  cfg_profile_name config = Some profile_name ->
  profile_name <> "" ->
  cfg_rewrites config = Some rewrites ->
  rewrites <> [] ->
  get_profiles w = (Body profiles, w1) ->
  find_profile profiles profile_name = Some profile ->
  http_get (rewrites_url (prof_id profile)) w1 = (Body existing, w2) ->
  let r := main path (Loaded config) env_key w in
  outcome r = Ret tt ->
  calls (events r)
  = EvGetProfiles
    :: EvRequest GET (rewrites_url (prof_id profile)) None
    :: planned_calls (prof_id profile) existing rewrites.
Proof.
  intros Hkey Hname Hnonempty Hrewrites Hsome Hget Hfind Hex r. subst r.
  rewrite (main_loaded path config env_key profile_name rewrites w)
    by assumption.
  cbv zeta. rewrite Hget, Hfind, Hex.
  destruct (reconcile_planned (prof_id profile) existing rewrites w2)
    as (rest & Hplan & Hdone).
  destruct (reconcile (prof_id profile) existing rewrites w2) as [[o w3] tr].
  unfold events, outcome in *. cbn [fst snd] in *.
  intros ->. rewrite calls_app, Hplan, (Hdone eq_refl), app_nil_r.
  reflexivity.
Qed.

End WholeRun.

(** ** Bounds *)

Section Bounds.

Context {World : Type} {nextdns : NextDns World}.

Implicit Types (w : World).

Lemma planned_calls_length profile_id existing rewrites :
  length (planned_calls profile_id existing rewrites) <= 2 * length rewrites.
Proof.
  induction rewrites as [|rw tl IH]; [apply Nat.le_refl|].
  rewrite planned_calls_cons, length_app.
  unfold planned_calls at 1. cbn [flat_map length].
  destruct (first_match existing (rw_name rw)); cbn [length app]; lia.
Qed.

Lemma planned_calls_nil profile_id rewrites :
  planned_calls profile_id [] rewrites = map (post_call profile_id) rewrites.
Proof.
  induction rewrites as [|rw tl IH]; [reflexivity|].
  rewrite planned_calls_cons, IH. reflexivity.
Qed.

(** X18: the loop issues at most two calls for each desired rewrite,
    whatever the service answers: nothing is retried and nothing is fetched
    again. *)
Theorem reconcile_call_budget profile_id existing rewrites w :
  length (calls (events (reconcile profile_id existing rewrites w)))
  <= 2 * length rewrites.
Proof.
  destruct (reconcile_planned profile_id existing rewrites w)
    as (rest & Hplan & _).
  pose proof (planned_calls_length profile_id existing rewrites) as Hlen.
  rewrite Hplan, length_app in Hlen. lia.
Qed.

(** X19: against a profile without any rewrite the loop only creates: it
    issues no DELETE, its calls are the POSTs of an initial part of the
    desired rewrites, in configuration order, and of all of them when it
    completes. *)
Theorem reconcile_empty_remote profile_id rewrites w :
  let r := reconcile profile_id [] rewrites w in
  count_method DELETE (events r) = 0
  /\ (exists later,
        map (post_call profile_id) rewrites = calls (events r) ++ later)
  /\ (outcome r = Ret tt ->
      calls (events r) = map (post_call profile_id) rewrites).
Proof.
  cbv zeta.
  destruct (reconcile_planned profile_id [] rewrites w)
    as (rest & Hplan & Hdone).
  rewrite planned_calls_nil in Hplan.
  split; [|split].
  - rewrite <- count_method_calls.
    assert (Hzero : count_method DELETE (map (post_call profile_id) rewrites)
                    = 0).
    { clear. induction rewrites as [|rw tl IH]; [reflexivity|exact IH]. }
    rewrite Hplan, count_method_app in Hzero. lia.
  - now exists rest.
  - intros Hret. rewrite (Hdone Hret), app_nil_r in Hplan. now symmetry.
Qed.

End Bounds.

(** ** These theorems on concrete runs *)

Module MoreRuns.

Import Double.

Lemma reconcile_calls_are_planned_witness :
  In (delete_call "p1" r9)
     (calls (events (reconcile "p1" [n1; r9; r10] [router; nas]
                       (home [n1; r9; r10] Status204))))
  /\ exists rw, In rw [router; nas]
                /\ (delete_call "p1" r9 = post_call "p1" rw
                    \/ exists e, In e [n1; r9; r10]
                                 /\ ex_name e = rw_name rw
                                 /\ delete_call "p1" r9 = delete_call "p1" e).
Proof.
  assert (H : In (delete_call "p1" r9)
                (calls (events (reconcile "p1" [n1; r9; r10] [router; nas]
                                  (home [n1; r9; r10] Status204)))))
    by (vm_compute; left; reflexivity).
  split; [exact H|].
  exact (reconcile_calls_are_planned "p1" [n1; r9; r10] [router; nas]
           (home [n1; r9; r10] Status204) (delete_call "p1" r9) H).
Defined.

Lemma reconcile_ignores_content_witness :
  let stale := [mkRemoteRewrite "r9" "router.lan" "192.168.1.1"] in
  Forall2 (fun e1 e2 => ex_id e1 = ex_id e2 /\ ex_name e1 = ex_name e2)
    [r9] stale
  /\ reconcile "p1" [r9] [router] (home [r9] Status204)
     = reconcile "p1" stale [router] (home [r9] Status204).
Proof.
  cbv zeta.
  assert (H : Forall2
                (fun e1 e2 => ex_id e1 = ex_id e2 /\ ex_name e1 = ex_name e2)
                [r9] [mkRemoteRewrite "r9" "router.lan" "192.168.1.1"])
    by (repeat constructor).
  split; [exact H|].
  exact (reconcile_ignores_content "p1" [r9]
           [mkRemoteRewrite "r9" "router.lan" "192.168.1.1"] [router]
           (home [r9] Status204) H).
Defined.

Lemma failed_create_after_delete_witness :
  let r := @reconcile Server read_only_api "p1" [r9] [router; nas]
             (home [r9] Status204) in
  outcome r = Raise (SystemExit 1)
  /\ world_after r = home [] Status204
  /\ calls (events r) = [delete_call "p1" r9; post_call "p1" router].
Proof.
  cbv zeta.
  assert (Hok : delete_succeeded
                  (fst (@http_delete Server read_only_api
                          (rewrite_url "p1" (ex_id r9))
                          (home [r9] Status204))))
    by (right; reflexivity).
  assert (Hpost : @http_post Server read_only_api (rewrites_url "p1") router
                    (snd (@http_delete Server read_only_api
                            (rewrite_url "p1" (ex_id r9))
                            (home [r9] Status204)))
                  = (ApiError "Error code: 403", home [] Status204))
    by (vm_compute; reflexivity).
  destruct (@failed_create_after_delete Server read_only_api "p1" router
              [nas] [r9] r9 (home [r9] Status204) "Error code: 403"
              (home [] Status204) eq_refl Hok Hpost)
    as (Hout & Hworld & Hcalls & _).
  repeat split; assumption.
Defined.

Lemma failed_create_when_absent_witness :
  @reconcile Server read_only_api "p1" [n1] [router; nas]
    (home [n1] Status204)
  = (Raise (SystemExit 1), home [n1] Status204,
     [EvLog INFO "NextDNS rewrite router.lan does not exist. Creating...";
      post_call "p1" router;
      EvLog ERROR
        "Error creating NextDNS rewrite: Error creating NextDNS rewrite: Error code: 403"]).
Proof.
  assert (Hpost : @http_post Server read_only_api (rewrites_url "p1") router
                    (home [n1] Status204)
                  = (ApiError "Error code: 403", home [n1] Status204))
    by reflexivity.
  exact (@failed_create_when_absent Server read_only_api "p1" router [nas]
           [n1] (home [n1] Status204) "Error code: 403"
           (home [n1] Status204) eq_refl Hpost).
Defined.

Lemma config_not_loaded_exits_witness :
  main "config.yaml" (YAMLError "mapping values are not allowed here") None
    (home [r9] Status204)
  = (Raise (SystemExit 1), home [r9] Status204,
     [EvLog ERROR
        "Error parsing YAML configuration: mapping values are not allowed here"]).
Proof.
  apply (config_not_loaded_exits "config.yaml"
           (YAMLError "mapping values are not allowed here") None
           (home [r9] Status204)).
  discriminate.
Defined.

Lemma missing_api_key_exits_witness :
  truthy (Some "") = false
  /\ main "config.yaml" (home_config [router]) (Some "") (home [r9] Status204)
     = (Raise (SystemExit 1), home [r9] Status204,
        [EvLog ERROR "NEXTDNS_API_KEY environment variable not set."]).
Proof.
  split; [reflexivity|].
  exact (missing_api_key_exits "config.yaml"
           (mkConfig (Some "home") (Some [router])) (Some "")
           (home [r9] Status204) eq_refl).
Defined.

Lemma missing_profile_name_exits_witness :
  main "config.yaml" (Loaded (mkConfig None (Some [router]))) (Some "key")
    (home [r9] Status204)
  = (Raise (SystemExit 1), home [r9] Status204,
     [EvLog ERROR "NextDNS Profile Name not found in configuration file."]).
Proof.
  exact (missing_profile_name_exits "config.yaml"
           (mkConfig None (Some [router])) (Some "key")
           (home [r9] Status204) eq_refl eq_refl).
Defined.

Lemma no_rewrites_exits_witness :
  main "config.yaml" (Loaded (mkConfig (Some "home") (Some []))) (Some "key")
    (home [r9] Status204)
  = (Raise (SystemExit 1), home [r9] Status204,
     [EvLog INFO "NextDNS Profile Name: home";
      EvLog ERROR "No NextDNS rewrites found in configuration file."]).
Proof.
  apply (no_rewrites_exits "config.yaml" (mkConfig (Some "home") (Some []))
           (Some "key") "home" (home [r9] Status204) eq_refl eq_refl).
  - discriminate.
  - right. reflexivity.
Defined.

Lemma get_profiles_failure_exits_witness :
  @main Server down_api "config.yaml" (home_config [router]) (Some "key")
    (home [r9] Status204)
  = (Raise (SystemExit 1), home [r9] Status204,
     [EvLog INFO "NextDNS Profile Name: home";
      EvGetProfiles;
      EvLog ERROR "Error getting NextDNS profile: Error code: 503"]).
Proof.
  assert (Hget : @get_profiles Server down_api (home [r9] Status204)
                 = (ApiError "Error code: 503", home [r9] Status204))
    by reflexivity.
  apply (@get_profiles_failure_exits Server down_api "config.yaml"
           (mkConfig (Some "home") (Some [router])) (Some "key") "home"
           [router] (home [r9] Status204) "Error code: 503"
           (home [r9] Status204) eq_refl eq_refl);
    [discriminate | reflexivity | discriminate | exact Hget].
Defined.

Lemma get_rewrites_failure_exits_witness :
  let r := main "config.yaml"
             (Loaded (mkConfig (Some "work") (Some [router]))) (Some "key")
             two_profiles in
  outcome r = Raise (SystemExit 1)
  /\ calls (events r)
     = [EvGetProfiles; EvRequest GET (rewrites_url "p2") None].
Proof.
  cbv zeta.
  assert (Hget : get_profiles two_profiles
                 = (Body (srv_profiles two_profiles), two_profiles))
    by reflexivity.
  assert (Hex : http_get (rewrites_url (prof_id (mkProfile "p2" "work")))
                  two_profiles
                = (ApiError "Error code: 404", two_profiles))
    by (vm_compute; reflexivity).
  assert (Hname : "work" <> "") by discriminate.
  assert (Hsome : [router] <> []) by discriminate.
  destruct (get_rewrites_failure_exits "config.yaml"
              (mkConfig (Some "work") (Some [router])) (Some "key") "work"
              [router] (srv_profiles two_profiles) (mkProfile "p2" "work")
              two_profiles two_profiles "Error code: 404" two_profiles
              eq_refl eq_refl Hname eq_refl Hsome Hget eq_refl Hex)
    as (Hout & _ & Hcalls & _).
  split; assumption.
Defined.

Lemma main_completed_calls_witness :
  let r := main "config.yaml" (home_config [nas; router]) (Some "key")
             (home [r9; r10] Status204) in
  outcome r = Ret tt
  /\ calls (events r)
     = [EvGetProfiles;
        EvRequest GET (rewrites_url "p1") None;
        post_call "p1" nas;
        delete_call "p1" r9;
        post_call "p1" router].
Proof.
  cbv zeta.
  assert (Hout : outcome (main "config.yaml" (home_config [nas; router])
                            (Some "key") (home [r9; r10] Status204))
                 = Ret tt)
    by (vm_compute; reflexivity).
  split; [exact Hout|].
  assert (Hget : get_profiles (home [r9; r10] Status204)
                 = (Body [mkProfile "p1" "home"], home [r9; r10] Status204))
    by reflexivity.
  assert (Hex : http_get (rewrites_url (prof_id (mkProfile "p1" "home")))
                  (home [r9; r10] Status204)
                = (Body [r9; r10], home [r9; r10] Status204))
    by (vm_compute; reflexivity).
  assert (Hname : "home" <> "") by discriminate.
  assert (Hsome : [nas; router] <> []) by discriminate.
  exact (main_completed_calls "config.yaml"
           (mkConfig (Some "home") (Some [nas; router])) (Some "key") "home"
           [nas; router] [mkProfile "p1" "home"] (mkProfile "p1" "home")
           [r9; r10] (home [r9; r10] Status204) (home [r9; r10] Status204)
           (home [r9; r10] Status204)
           eq_refl eq_refl Hname eq_refl Hsome Hget eq_refl Hex Hout).
Defined.

End MoreRuns.
